(** * The staged document question-answering pipeline of [trial.py]

    A shallow embedding of the five LangGraph nodes ([process_input],
    [process_pdf], [summarize_page], [search_summaries], [verify_results]),
    of the [asyncio.gather] fan-out they use and of the linear graph that
    chains them, followed by the properties of the pipeline.

    The language-model gateway, the PDF tool and the Pydantic output parsers
    are collaborators of the program: they are the variables of the section
    below.  Every theorem therefore holds whatever the model answers. *)

From Stdlib Require Import String Ascii ZArith List Bool Arith Lia DecimalString.
Import ListNotations.
Open Scope string_scope.

(** ** Python values and exceptions *)

Inductive exn : Type :=
| ValueError (msg : string)
| KeyError (key : string)
| IndexError
| OutputParserException
| ExternalError (what : string).

Inductive result (A : Type) : Type :=
| Ok (a : A)
| Raise (e : exn).
Arguments Ok {A} a.
Arguments Raise {A} e.

Definition is_raise {A : Type} (r : result A) : bool :=
  match r with Ok _ => false | Raise _ => true end.

(** The line feed and the double quote of the prompts. *)
Definition nl : string := String "010"%char EmptyString.
Definition dq : string := String "034"%char EmptyString.

(** [str(n)] for an [int]. *)
Definition str_of_int (n : Z) : string := NilZero.string_of_int (Z.to_int n).

(** [sep.join(parts)]. *)
Definition join (sep : string) (parts : list string) : string :=
  String.concat sep parts.

(** [not s] for a string that may be [None]. *)
Definition not_str (s : option string) : bool :=
  match s with
  | None => true
  | Some EmptyString => true
  | Some (String _ _) => false
  end.

(** [not l] for a list that may be [None]. *)
Definition not_list {A : Type} (l : option (list A)) : bool :=
  match l with
  | None => true
  | Some [] => true
  | Some (_ :: _) => false
  end.

(** [l[i]] for a non-negative index. *)
Definition index {A : Type} (l : list A) (i : nat) : result A :=
  match nth_error l i with
  | Some x => Ok x
  | None => Raise IndexError
  end.

(** [l[-1]] on a list already known to be non-empty, [None] otherwise. *)
Fixpoint last_item {A : Type} (l : list A) : option A :=
  match l with
  | [] => None
  | [x] => Some x
  | _ :: tl => last_item tl
  end.

(** [[x for x in l if x]] on a list of dictionaries-or-[None]. *)
Fixpoint keep_truthy {A : Type} (l : list (option A)) : list A :=
  match l with
  | [] => []
  | Some x :: tl => x :: keep_truthy tl
  | None :: tl => keep_truthy tl
  end.

(** ** The data model *)

Module InputData.
Record t : Type := mk { pdf_path : string; query : string }.
End InputData.

Module PageSummary.
Record t : Type :=
  mk { page_number : Z; heading_sentence : string; key_points : list string }.
End PageSummary.

Module SearchResult.
Record t : Type := mk { content : string; claimed_page : Z }.
End SearchResult.

Module SearchResultList.
Record t : Type := mk { results : list SearchResult.t }.
End SearchResultList.

Module VerificationResult.
Record t : Type := mk { valid : bool; explanation : string }.
End VerificationResult.

(** The dictionaries [{"page_number": .., "content": ..}] of
    [extracted_pages]; the PDF tool hands out pages of the same shape. *)
Module Page.
Record t : Type := mk { page_number : Z; content : string }.
End Page.

(** What [pdf_tool.invoke] returns: a dictionary whose ["pages"] key may be
    missing. *)
Module PdfResult.
Record t : Type := mk { pages : option (list Page.t) }.
End PdfResult.

(** The dictionaries of [summarized_pages]. *)
Module SummarizedPage.
Record t : Type :=
  mk { page_number : Z; heading_sentence : string; key_points : list string }.
End SummarizedPage.

(** The dictionaries [{"content": .., "source": .., "explanation": ..}] that
    [verify] returns for a retained claim. *)
Module VerifiedPoint.
Record t : Type := mk { content : string; source : string; explanation : string }.
End VerifiedPoint.

Inductive role : Type := user | assistant.

Module Message.
Record t : Type := mk { role : role; content : string }.
End Message.

(** The keys of the [State] dictionary. *)
Inductive key : Type :=
| k_messages
| k_pdf_path
| k_query
| k_extracted_pages
| k_summarized_pages
| k_search_results
| k_verified_results.

Definition key_eqb (a b : key) : bool :=
  match a, b with
  | k_messages, k_messages
  | k_pdf_path, k_pdf_path
  | k_query, k_query
  | k_extracted_pages, k_extracted_pages
  | k_summarized_pages, k_summarized_pages
  | k_search_results, k_search_results
  | k_verified_results, k_verified_results => true
  | _, _ => false
  end.

(** [State]: every key but [messages] may be absent ([None]), which is what
    [state.get(..)] observes. *)
Module State.
Record t : Type :=
  mk { messages : list Message.t;
       pdf_path : option string;
       query : option string;
       extracted_pages : option (list Page.t);
       summarized_pages : option (list SummarizedPage.t);
       search_results : option (list SearchResult.t);
       verified_results : option (list VerifiedPoint.t) }.
End State.

(** One entry of the dictionary a node returns. *)
Inductive write : Type :=
| Set_messages (ms : list Message.t)
| Set_pdf_path (p : string)
| Set_query (q : string)
| Set_extracted_pages (ps : list Page.t)
| Set_summarized_pages (ss : list SummarizedPage.t)
| Set_search_results (rs : list SearchResult.t)
| Set_verified_results (vs : list VerifiedPoint.t).

(** The dictionary a node returns, in the order it is written. *)
Definition update : Type := list write.

Definition key_of (w : write) : key :=
  match w with
  | Set_messages _ => k_messages
  | Set_pdf_path _ => k_pdf_path
  | Set_query _ => k_query
  | Set_extracted_pages _ => k_extracted_pages
  | Set_summarized_pages _ => k_summarized_pages
  | Set_search_results _ => k_search_results
  | Set_verified_results _ => k_verified_results
  end.

Definition keys (u : update) : list key := map key_of u.

(** How the graph folds one entry into the state: [messages] goes through
    the [add_messages] reducer, which appends; every other key is
    overwritten. *)
Definition apply_write (st : State.t) (w : write) : State.t :=
  let (ms, pp, q, ep, sp, sr, vr) := st in
  match w with
  | Set_messages new => State.mk (ms ++ new) pp q ep sp sr vr
  | Set_pdf_path p => State.mk ms (Some p) q ep sp sr vr
  | Set_query q' => State.mk ms pp (Some q') ep sp sr vr
  | Set_extracted_pages ps => State.mk ms pp q (Some ps) sp sr vr
  | Set_summarized_pages ss => State.mk ms pp q ep (Some ss) sr vr
  | Set_search_results rs => State.mk ms pp q ep sp (Some rs) vr
  | Set_verified_results vs => State.mk ms pp q ep sp sr (Some vs)
  end.

Definition apply_update (st : State.t) (u : update) : State.t :=
  fold_left apply_write u st.

(** ** Awaiting the gateway

    A computation threads the number of gateway calls issued so far, so that
    the gateway may answer the same prompt differently at different calls,
    and stops at the first exception. *)

Definition M (A : Type) : Type := nat -> result (A * nat).

Definition ret {A : Type} (a : A) : M A := fun c => Ok (a, c).

Definition raise {A : Type} (e : exn) : M A := fun _ => Raise e.

Definition bind {A B : Type} (m : M A) (k : A -> M B) : M B :=
  fun c =>
    match m c with
    | Ok (a, c') => k a c'
    | Raise e => Raise e
    end.

Definition lift {A : Type} (r : result A) : M A :=
  fun c =>
    match r with
    | Ok a => Ok (a, c)
    | Raise e => Raise e
    end.

Notation "x <- m ;; k" := (bind m (fun x => k))
  (at level 61, m at next level, right associativity).

(** [await asyncio.gather( *tasks)]: the tasks are started in the order of
    the list and each issues its gateway call before it is suspended, so the
    calls are numbered in list order; the results come back in list order;
    an exception of a task is raised out of the [await].  When several
    tasks raise, [asyncio] raises the exception of the task that fails
    first in time, which the gateway decides; [gather] raises that of the
    first task in the list.  The two agree when at most one task raises,
    and on whether the [await] raises at all; nothing below names the
    exception a fan-out raises unless only one of its tasks can raise. *)
Fixpoint gather {A : Type} (tasks : list (M A)) : M (list A) :=
  match tasks with
  | [] => ret []
  | task :: rest =>
      a <- task ;;
      others <- gather rest ;;
      ret (a :: others)
  end.

(** A plain loop over a generator that may raise. *)
Fixpoint for_each {A B : Type} (f : A -> result B) (l : list A) : result (list B) :=
  match l with
  | [] => Ok []
  | x :: tl =>
      match f x with
      | Raise e => Raise e
      | Ok y =>
          match for_each f tl with
          | Raise e => Raise e
          | Ok ys => Ok (y :: ys)
          end
      end
  end.

(** ** Collaborators *)

(** A [PydanticOutputParser]: [parse] raises on text that does not fit the
    schema, modelled by [None]. *)
Record PydanticOutputParser (T : Type) : Type :=
  { parse : string -> option T;
    get_format_instructions : string }.
Arguments parse {T} _ _.
Arguments get_format_instructions {T} _.

(** Everything the module reaches outside of itself.  [llm c prompt] is the
    content of the gateway's answer to [prompt] when it is the call number
    [c] of the run; [pdf_tool path] is what the PDF tool returns. *)
Record collaborators : Type :=
  { llm : nat -> string -> result string;
    pdf_tool : string -> result PdfResult.t;
    input_parser : PydanticOutputParser InputData.t;
    summary_parser : PydanticOutputParser PageSummary.t;
    search_result_list_parser : PydanticOutputParser SearchResultList.t;
    verification_parser : PydanticOutputParser VerificationResult.t }.

(** A node of the graph, and what a run of a chain of nodes leaves behind:
    the dictionaries the nodes returned, the state after the last node that
    returned, the exception that stopped the run if one did, and the number
    of gateway calls issued by the nodes that returned (the calls a node
    issued before it raised are not counted: for a stopped run [calls] is
    the count on entry to the node that raised). *)
Record node : Type :=
  { name : string;
    action : State.t -> M update }.

Record outcome : Type :=
  { trace : list (string * update);
    final : State.t;
    error : option (string * exn);
    calls : nat }.

Fixpoint invoke (nodes : list node) (st : State.t) (c : nat) : outcome :=
  match nodes with
  | [] => {| trace := []; final := st; error := None; calls := c |}
  | n :: rest =>
      match action n st c with
      | Raise e =>
          {| trace := []; final := st; error := Some (name n, e); calls := c |}
      | Ok (u, c') =>
          let o := invoke rest (apply_update st u) c' in
          {| trace := (name n, u) :: trace o;
             final := final o;
             error := error o;
             calls := calls o |}
      end
  end.

Section Pipeline.

Variable W : collaborators.

(** [await llm.ainvoke([{"role": "user", "content": prompt}])], read at
    its [.content]. *)
Definition ainvoke (prompt : string) : M string :=
  fun c =>
    match llm W c prompt with
    | Ok response => Ok (response, S c)
    | Raise e => Raise e
    end.

(** *** [process_input] *)

Definition parsing_prompt (user_message : string) : string :=
  "You are a helpful assistant. Extract the following details from the user's input:"
    ++ nl ++ nl
    ++ "User Input: " ++ dq ++ user_message ++ dq ++ nl ++ nl
    ++ get_format_instructions (input_parser W).

Definition process_input (state : State.t) : M update :=
  match last_item (State.messages state) with
  | None => raise (ValueError "No input provided.")
  | Some last_message =>
      let user_message := Message.content last_message in
      response <- ainvoke (parsing_prompt user_message) ;;
      match parse (input_parser W) response with
      | Some parsed_data =>
          ret [Set_pdf_path (InputData.pdf_path parsed_data);
               Set_query (InputData.query parsed_data)]
      | None => raise (ValueError "Failed to extract PDF path and query.")
      end
  end.

(** *** [process_pdf] *)

Definition process_pdf (state : State.t) : result update :=
  let pdf_path := State.pdf_path state in
  if not_str pdf_path then Raise (ValueError "PDF path not found.")
  else
    match pdf_tool W (match pdf_path with Some p => p | None => EmptyString end) with
    | Raise e => Raise e
    | Ok pdf_result =>
        let pages :=
          match PdfResult.pages pdf_result with
          | Some ps => ps
          | None => []
          end in
        let extracted_pages :=
          map (fun page => Page.mk (Page.page_number page) (Page.content page)) pages in
        Ok [Set_extracted_pages extracted_pages]
    end.

(** *** [summarize_page] *)

Definition summarize_prompt (page_number : Z) (content : string) : string :=
  "You are an advanced document summarizer. Summarize the following content from page "
    ++ str_of_int page_number ++ " of a document. "
    ++ "Your summary should have a heading sentence and three key points. Ensure that at least one of the points is qualitative "
    ++ "and one is quantitative. Each point should reflect significant facts or insights and be concise. Below is the content for summarization:"
    ++ nl ++ nl
    ++ dq ++ content ++ dq ++ nl ++ nl
    ++ "Please respond using the following structure in valid JSON format:" ++ nl
    ++ get_format_instructions (summary_parser W).

Definition summarize (page_data : Page.t) : M PageSummary.t :=
  let page_number := Page.page_number page_data in
  let content := Page.content page_data in
  response <- ainvoke (summarize_prompt page_number content) ;;
  match parse (summary_parser W) response with
  | Some summary => ret summary
  | None => raise OutputParserException
  end.

Definition summarize_page (state : State.t) : M update :=
  match State.extracted_pages state with
  | None => raise (KeyError "extracted_pages")
  | Some extracted_pages =>
      let tasks := map summarize extracted_pages in
      summaries <- gather tasks ;;
      let summarized_pages :=
        map (fun summary =>
               SummarizedPage.mk (PageSummary.page_number summary)
                                 (PageSummary.heading_sentence summary)
                                 (PageSummary.key_points summary))
            summaries in
      ret [Set_summarized_pages summarized_pages]
  end.

(** *** [search_summaries] *)

Definition summary_block (summary : SummarizedPage.t) : result string :=
  match index (SummarizedPage.key_points summary) 0 with
  | Raise e => Raise e
  | Ok point1 =>
      match index (SummarizedPage.key_points summary) 1 with
      | Raise e => Raise e
      | Ok point2 =>
          match index (SummarizedPage.key_points summary) 2 with
          | Raise e => Raise e
          | Ok point3 =>
              Ok ("Page " ++ str_of_int (SummarizedPage.page_number summary) ++ ":" ++ nl
                    ++ "- **Heading Sentence**: "
                    ++ SummarizedPage.heading_sentence summary ++ nl
                    ++ "- **Key Points**:" ++ nl
                    ++ "  1. " ++ point1 ++ nl
                    ++ "  2. " ++ point2 ++ nl
                    ++ "  3. " ++ point3)
          end
      end
  end.

Definition search_prompt (concatenated_summaries query : string) : string :=
  "The following are summaries from a document:" ++ nl ++ nl
    ++ concatenated_summaries ++ nl ++ nl
    ++ "Based on the query: " ++ dq ++ query ++ dq
    ++ ", extract the top 10 relevant points from the summary. "
    ++ "Each point should be associated with exactly one page number as its source. "
    ++ "Please respond using the following structure in valid JSON format:" ++ nl
    ++ get_format_instructions (search_result_list_parser W).

Definition search_summaries (state : State.t) : M update :=
  let query := State.query state in
  let summaries := State.summarized_pages state in
  if not_str query then raise (ValueError "Query not found.")
  else if not_list summaries then raise (ValueError "Summaries not found.")
  else
    blocks <- lift (for_each summary_block
                      (match summaries with Some l => l | None => [] end)) ;;
    let concatenated_summaries := join (nl ++ nl) blocks in
    response <- ainvoke (search_prompt concatenated_summaries
                           (match query with Some q => q | None => EmptyString end)) ;;
    match parse (search_result_list_parser W) response with
    | Some parsed_results =>
        ret [Set_search_results (SearchResultList.results parsed_results)]
    | None => raise (ValueError "Failed to parse search results.")
    end.

(** *** [verify_results] *)

Definition verification_prompt (claimed_page : Z) (content raw_content : string) : string :=
  "Does the following summary originate from the content of Page "
    ++ str_of_int claimed_page ++ "?" ++ nl ++ nl
    ++ "Summary:" ++ nl ++ content ++ nl ++ nl
    ++ "Page " ++ str_of_int claimed_page ++ " Content:" ++ nl ++ raw_content ++ nl ++ nl
    ++ "Check the following:" ++ nl
    ++ "- Does the numerical data match exactly?" ++ nl
    ++ "- Are qualitative descriptions consistent and supported by the content?" ++ nl
    ++ "- Ensure there is no hallucination." ++ nl ++ nl
    ++ "Respond with the following structure in valid JSON format:" ++ nl
    ++ get_format_instructions (verification_parser W).

(** [next((page for page in extracted_pages if ..), None)]. *)
Definition matching (extracted_pages : list Page.t) (claimed_page : Z) : option Page.t :=
  find (fun page => Z.eqb (Page.page_number page) claimed_page) extracted_pages.

Definition verify (extracted_pages : list Page.t) (result : SearchResult.t)
  : M (option VerifiedPoint.t) :=
  let claimed_page := SearchResult.claimed_page result in
  let content := SearchResult.content result in
  match matching extracted_pages claimed_page with
  | None => ret None
  | Some matching_page =>
      let raw_content := Page.content matching_page in
      response <- ainvoke (verification_prompt claimed_page content raw_content) ;;
      match parse (verification_parser W) response with
      | Some verification_result =>
          if VerificationResult.valid verification_result
          then ret (Some (VerifiedPoint.mk
                            content
                            ("Page " ++ str_of_int claimed_page)
                            (VerificationResult.explanation verification_result)))
          else ret None
      | None => ret None
      end
  end.

Definition formatted (verified_results : list VerifiedPoint.t) : string :=
  join (nl ++ nl)
       (map (fun result =>
               VerifiedPoint.content result
                 ++ " (Source: " ++ VerifiedPoint.source result ++ ")")
            verified_results).

Definition verify_results (state : State.t) : M update :=
  let search_results :=
    match State.search_results state with Some l => l | None => [] end in
  let extracted_pages :=
    match State.extracted_pages state with Some l => l | None => [] end in
  if not_list (Some search_results)
  then raise (ValueError "No search results to verify.")
  else if not_list (Some extracted_pages)
  then raise (ValueError "No extracted pages to verify against.")
  else
    let tasks := map (verify extracted_pages) search_results in
    all_verified_points <- gather tasks ;;
    let verified_results := keep_truthy all_verified_points in
    let formatted_results := formatted verified_results in
    ret [Set_messages
           [Message.mk assistant
                       ("Verified Results:" ++ nl ++ nl ++ formatted_results)];
         Set_verified_results verified_results].

(** *** The graph *)

Definition process_input_node : node :=
  {| name := "process_input"; action := process_input |}.
Definition process_pdf_node : node :=
  {| name := "process_pdf"; action := fun state => lift (process_pdf state) |}.
Definition summarize_page_node : node :=
  {| name := "summarize_page"; action := summarize_page |}.
Definition search_summaries_node : node :=
  {| name := "search_summaries"; action := search_summaries |}.
Definition verify_results_node : node :=
  {| name := "verify_results"; action := verify_results |}.

(** The edges [START -> process_input -> process_pdf -> summarize_page
    -> search_summaries -> verify_results -> END]. *)
Definition graph : list node :=
  [process_input_node; process_pdf_node; summarize_page_node;
   search_summaries_node; verify_results_node].

Definition graph_invoke (st : State.t) (c : nat) : outcome := invoke graph st c.

End Pipeline.

(** The state [astream_graph_updates] starts the graph from. *)
Definition initial_state (user_input : string) : State.t :=
  {| State.messages := [Message.mk user user_input];
     State.pdf_path := Some EmptyString;
     State.query := Some EmptyString;
     State.extracted_pages := Some [];
     State.summarized_pages := Some [];
     State.search_results := None;
     State.verified_results := None |}.

(** The keys each node returns. *)
Definition owned (node_name : string) : list key :=
  if String.eqb node_name "process_input" then [k_pdf_path; k_query]
  else if String.eqb node_name "process_pdf" then [k_extracted_pages]
  else if String.eqb node_name "summarize_page" then [k_summarized_pages]
  else if String.eqb node_name "search_summaries" then [k_search_results]
  else if String.eqb node_name "verify_results" then [k_messages; k_verified_results]
  else [].

(** The node that returns a key, read off [owned]. *)
Definition owner (k : key) : string :=
  match k with
  | k_pdf_path | k_query => "process_input"
  | k_extracted_pages => "process_pdf"
  | k_summarized_pages => "summarize_page"
  | k_search_results => "search_summaries"
  | k_messages | k_verified_results => "verify_results"
  end.

(** The nodes of a trace whose dictionary has the key [k]. *)
Definition writers (k : key) (tr : list (string * update)) : list string :=
  map fst (filter (fun e => existsb (key_eqb k) (keys (snd e))) tr).

(** The value of one key is the same in two states. *)
Definition unchanged (k : key) (s s' : State.t) : Prop :=
  match k with
  | k_messages => State.messages s' = State.messages s
  | k_pdf_path => State.pdf_path s' = State.pdf_path s
  | k_query => State.query s' = State.query s
  | k_extracted_pages => State.extracted_pages s' = State.extracted_pages s
  | k_summarized_pages => State.summarized_pages s' = State.summarized_pages s
  | k_search_results => State.search_results s' = State.search_results s
  | k_verified_results => State.verified_results s' = State.verified_results s
  end.

(** The state with its search results replaced. *)
Definition with_search_results (rs : list SearchResult.t) (st : State.t) : State.t :=
  apply_write st (Set_search_results rs).

(** [kept] is [l] with some items left out, the others in their order. *)
Inductive subsequence {A : Type} : list A -> list A -> Prop :=
| subsequence_nil : subsequence [] []
| subsequence_skip x kept l : subsequence kept l -> subsequence kept (x :: l)
| subsequence_keep x kept l : subsequence kept l -> subsequence (x :: kept) (x :: l).

(** The line of the final message for a retained search result. *)
Definition source_line (r : SearchResult.t) : string :=
  SearchResult.content r ++ " (Source: Page "
    ++ str_of_int (SearchResult.claimed_page r) ++ ")".

(** The model answered [answer] (a parsed payload, or [None] for text that
    does not parse) to a verification call for the search result [r]. *)
Definition answered (W : collaborators) (pages : list Page.t) (r : SearchResult.t)
           (answer : option VerificationResult.t) : Prop :=
  exists page i response,
    matching pages (SearchResult.claimed_page r) = Some page
    /\ llm W i (verification_prompt W (SearchResult.claimed_page r)
                  (SearchResult.content r) (Page.content page)) = Ok response
    /\ parse (verification_parser W) response = answer.

(** What an output slot of the verification fan-out says about its search
    result: a record when the page exists and the model asserted validity,
    nothing when the page is missing, the answer did not parse, or the model
    denied validity. *)
Definition judged (W : collaborators) (pages : list Page.t) (r : SearchResult.t)
           (slot : option VerifiedPoint.t) : Prop :=
  match slot with
  | Some v =>
      exists vr,
        answered W pages r (Some vr)
        /\ VerificationResult.valid vr = true
        /\ v = VerifiedPoint.mk (SearchResult.content r)
                 ("Page " ++ str_of_int (SearchResult.claimed_page r))
                 (VerificationResult.explanation vr)
  | None =>
      matching pages (SearchResult.claimed_page r) = None
      \/ answered W pages r None
      \/ exists vr, answered W pages r (Some vr) /\ VerificationResult.valid vr = false
  end.

(** What the verification of a batch of search results retains, told from
    the answers of the gateway alone.  [verified_from W pages c rs vs c']:
    the batch [rs] starts at call number [c]; a search result without a
    page issues no call and leaves nothing; one with a page issues the next
    call and leaves a record when the answer parses and asserts validity,
    nothing when the answer does not parse or denies validity; [vs] are the
    records left, in the order of [rs], and [c'] the next call number. *)
Inductive verified_from (W : collaborators) (pages : list Page.t)
  : nat -> list SearchResult.t -> list VerifiedPoint.t -> nat -> Prop :=
| verified_none c :
    verified_from W pages c [] [] c
| verified_unmatched c r rs vs c' :
    matching pages (SearchResult.claimed_page r) = None ->
    verified_from W pages c rs vs c' ->
    verified_from W pages c (r :: rs) vs c'
| verified_garbled c r rs vs c' page response :
    matching pages (SearchResult.claimed_page r) = Some page ->
    llm W c (verification_prompt W (SearchResult.claimed_page r)
               (SearchResult.content r) (Page.content page)) = Ok response ->
    parse (verification_parser W) response = None ->
    verified_from W pages (S c) rs vs c' ->
    verified_from W pages c (r :: rs) vs c'
| verified_denied c r rs vs c' page response vr :
    matching pages (SearchResult.claimed_page r) = Some page ->
    llm W c (verification_prompt W (SearchResult.claimed_page r)
               (SearchResult.content r) (Page.content page)) = Ok response ->
    parse (verification_parser W) response = Some vr ->
    VerificationResult.valid vr = false ->
    verified_from W pages (S c) rs vs c' ->
    verified_from W pages c (r :: rs) vs c'
| verified_valid c r rs vs c' page response vr :
    matching pages (SearchResult.claimed_page r) = Some page ->
    llm W c (verification_prompt W (SearchResult.claimed_page r)
               (SearchResult.content r) (Page.content page)) = Ok response ->
    parse (verification_parser W) response = Some vr ->
    VerificationResult.valid vr = true ->
    verified_from W pages (S c) rs vs c' ->
    verified_from W pages c (r :: rs)
      (VerifiedPoint.mk (SearchResult.content r)
         ("Page " ++ str_of_int (SearchResult.claimed_page r))
         (VerificationResult.explanation vr) :: vs) c'.

(** The answer of the gateway for the search result at position [i] of a
    batch started at call [c], when every result of the batch has a page:
    it is the answer to call [c + i]. *)
Definition answered_at (W : collaborators) (pages : list Page.t) (c i : nat)
           (r : SearchResult.t) (response : string) : Prop :=
  exists page,
    matching pages (SearchResult.claimed_page r) = Some page
    /\ llm W (c + i) (verification_prompt W (SearchResult.claimed_page r)
                        (SearchResult.content r) (Page.content page)) = Ok response.

(** The first four nodes, which run before [verify_results]. *)
Definition upstream (W : collaborators) : list node :=
  [process_input_node W; process_pdf_node W; summarize_page_node W;
   search_summaries_node W].

(** ** Scripted collaborators, for running the pipeline on examples *)

Module Demo.

Fixpoint lookup {T : Type} (table : list (string * T)) (text : string) : option T :=
  match table with
  | [] => None
  | (k, v) :: tl => if String.eqb k text then Some v else lookup tl text
  end.

Definition parser {T : Type} (table : list (string * T)) : PydanticOutputParser T :=
  {| parse := lookup table; get_format_instructions := "<format>" |}.

(** The gateway answers call number [c] with the [c]-th text of the
    script and fails after the script's end; the PDF tool reports [pages]
    for any path; each parser reads the texts of its table. *)
Definition scripted (script : list string) (pages : option (list Page.t))
           (inputs : list (string * InputData.t))
           (summaries : list (string * PageSummary.t))
           (searches : list (string * SearchResultList.t))
           (verdicts : list (string * VerificationResult.t)) : collaborators :=
  {| llm := fun c _ =>
              match nth_error script c with
              | Some text => Ok text
              | None => Raise (ExternalError "gateway")
              end;
     pdf_tool := fun _ => Ok (PdfResult.mk pages);
     input_parser := parser inputs;
     summary_parser := parser summaries;
     search_result_list_parser := parser searches;
     verification_parser := parser verdicts |}.

Definition two_pages : list Page.t :=
  [Page.mk 1 "Revenue grew 10% in Q1."; Page.mk 2 "Customer satisfaction improved."].

Definition inputs : list (string * InputData.t) :=
  [("in", InputData.mk "report.pdf" "financial performance");
   ("in-noquery", InputData.mk "report.pdf" EmptyString);
   ("in-nopath", InputData.mk EmptyString "financial performance")].

Definition summaries : list (string * PageSummary.t) :=
  [("s1", PageSummary.mk 1 "Revenue" ["grew"; "10%"; "Q1"]);
   ("s2", PageSummary.mk 2 "Customers" ["satisfied"; "improved"; "survey"]);
   ("s-short", PageSummary.mk 2 "Customers" ["satisfied"; "improved"])].

Definition claim (n : Z) : SearchResult.t := SearchResult.mk "Revenue grew 10%" n.

Definition searches : list (string * SearchResultList.t) :=
  [("three", SearchResultList.mk [claim 1; SearchResult.mk "Customers are happy" 2; claim 1]);
   ("eleven", SearchResultList.mk (repeat (claim 1) 11));
   ("stray", SearchResultList.mk [claim 1; claim 7; SearchResult.mk "Customers are happy" 2]);
   ("none", SearchResultList.mk [])].

Definition verdicts : list (string * VerificationResult.t) :=
  [("yes", VerificationResult.mk true "matches the page");
   ("no", VerificationResult.mk false "not on the page")].

Definition world (script : list string) (pages : option (list Page.t)) : collaborators :=
  scripted script pages inputs summaries searches verdicts.

Definition verify_state (rs : list SearchResult.t) : State.t :=
  {| State.messages := [Message.mk user "report.pdf: financial performance"];
     State.pdf_path := Some "report.pdf";
     State.query := Some "financial performance";
     State.extracted_pages := Some two_pages;
     State.summarized_pages := Some [];
     State.search_results := Some rs;
     State.verified_results := None |}.

Definition hello : State.t := initial_state "report.pdf: financial performance".

(** A run in which the second of three verification answers is garbled. *)
Definition one_garbled : collaborators :=
  world ["in"; "s1"; "s2"; "three"; "yes"; "garbage"; "yes"] (Some two_pages).

(** A run in which all three verification answers are garbled. *)
Definition all_garbled : collaborators :=
  world ["in"; "s1"; "s2"; "three"; "x"; "y"; "z"] (Some two_pages).

(** A run in which the summary of the second page is garbled. *)
Definition garbled_summary : collaborators :=
  world ["in"; "s1"; "garbage"] (Some two_pages).

(** A run in which the model returns eleven search results. *)
Definition eleven_results : collaborators :=
  world (["in"; "s1"; "s2"; "eleven"] ++ repeat "yes" 11)%list (Some two_pages).

(** A run in which the model returns no search result. *)
Definition no_results : collaborators :=
  world ["in"; "s1"; "s2"; "none"] (Some two_pages).

(** A run in which the second search result claims a page that is not there. *)
Definition stray_claim : collaborators :=
  world ["in"; "s1"; "s2"; "stray"; "yes"; "yes"] (Some two_pages).

(** A run in which the PDF tool reports no page. *)
Definition no_pages : collaborators := world ["in"] (Some []).

(** A run in which the model extracts an empty path. *)
Definition no_path : collaborators := world ["in-nopath"] (Some two_pages).

(** Runs in which the second summary has two key points, the query being
    empty in the first and present in the second. *)
Definition short_summary_no_query : collaborators :=
  world ["in-noquery"; "s1"; "s-short"] (Some two_pages).
Definition short_summary : collaborators :=
  world ["in"; "s1"; "s-short"] (Some two_pages).

End Demo.

(** ** The entry point: [astream_graph_updates] and the chat loop *)

(** [value["messages"]] when the key is in the dictionary. *)
Fixpoint lookup_messages (u : update) : option (list Message.t) :=
  match u with
  | [] => None
  | Set_messages ms :: _ => Some ms
  | _ :: rest => lookup_messages rest
  end.

(** What the body of the [async for] prints for one streamed dictionary:
    the last message of its [messages] entry, when it has one. *)
Definition print_update (value : update) : result (list string) :=
  match lookup_messages value with
  | None => Ok []
  | Some ms =>
      match last_item ms with
      | None => Raise IndexError
      | Some last_message => Ok ["Assistant: " ++ Message.content last_message]
      end
  end.

(** [graph.astream(state)] consumed by the [async for]: after each node the
    dictionary it returned is handed to the loop body before the next node
    runs.  The result is the lines printed by the loop body (what the
    nodes print in their [except] branches is not part of the model), the
    exception that ended the iteration if one did, and the number of
    gateway calls issued. *)
Fixpoint astream (nodes : list node) (st : State.t) (c : nat)
  : list string * option exn * nat :=
  match nodes with
  | [] => ([], None, c)
  | n :: rest =>
      match action n st c with
      | Raise e => ([], Some e, c)
      | Ok (u, c') =>
          match print_update u with
          | Raise e => ([], Some e, c')
          | Ok lines =>
              let '(more, err, c'') := astream rest (apply_update st u) c' in
              ((lines ++ more)%list, err, c'')
          end
      end
  end.

Definition astream_graph_updates (W : collaborators) (user_input : string) (c : nat)
  : list string * option exn * nat :=
  astream (graph W) (initial_state user_input) c.

(** [s.lower()] on the letters A to Z; every other byte is kept. *)
Definition lower_ascii (a : ascii) : ascii :=
  let n := nat_of_ascii a in
  if Nat.leb 65 n && Nat.leb n 90 then ascii_of_nat (n + 32) else a.

Fixpoint lower (s : string) : string :=
  match s with
  | EmptyString => EmptyString
  | String a rest => String (lower_ascii a) (lower rest)
  end.

Definition exit_words : list string := ["quit"; "exit"; "q"; "bye"].

(** One round of the [while True] loop of the script: the lines of the
    assistant printed by a run that was not stopped, those of a run that
    was stopped with its exception (the round of [print(f"Error: {e}")]),
    the goodbye, or [input] raising at the end of the input. *)
Inductive turn : Type :=
| Answered (lines : list string)
| Failed (lines : list string) (e : exn)
| Goodbye
| End_of_input.

(** The loop, fed the lines that [input] will return; when they run out
    [input] raises and the loop ends in its [except] branch. *)
Fixpoint main_loop (W : collaborators) (inputs : list string) (c : nat) : list turn :=
  match inputs with
  | [] => [End_of_input]
  | user_input :: rest =>
      if existsb (String.eqb (lower user_input)) exit_words
      then [Goodbye]
      else
        match astream_graph_updates W user_input c with
        | (lines, Some e, _) => [Failed lines e]
        | (lines, None, c') => Answered lines :: main_loop W rest c'
        end
  end.

(** ** Notions for the properties of the nodes *)

(** The exceptions the nodes raise themselves in a run of the graph. *)
Definition own_errors : list (string * exn) :=
  [("process_input", ValueError "No input provided.");
   ("process_input", ValueError "Failed to extract PDF path and query.");
   ("process_pdf", ValueError "PDF path not found.");
   ("summarize_page", OutputParserException);
   ("search_summaries", ValueError "Query not found.");
   ("search_summaries", ValueError "Summaries not found.");
   ("search_summaries", IndexError);
   ("search_summaries", ValueError "Failed to parse search results.");
   ("verify_results", ValueError "No search results to verify.")].

(** The exception was raised by the gateway. *)
Definition from_gateway (W : collaborators) (e : exn) : Prop :=
  exists i prompt, llm W i prompt = Raise e.

(** The exception was raised by the PDF tool. *)
Definition from_pdf_tool (W : collaborators) (e : exn) : Prop :=
  exists path, pdf_tool W path = Raise e.

(** The search result claims a page that was extracted. *)
Definition has_page (pages : list Page.t) (r : SearchResult.t) : bool :=
  match matching pages (SearchResult.claimed_page r) with
  | Some _ => true
  | None => false
  end.

(** The dictionary of a summary as [summarize_page] builds it. *)
Definition summarized (summary : PageSummary.t) : SummarizedPage.t :=
  SummarizedPage.mk (PageSummary.page_number summary)
                    (PageSummary.heading_sentence summary)
                    (PageSummary.key_points summary).

(** A summary cut down to its first three key points. *)
Definition first_three (s : SummarizedPage.t) : SummarizedPage.t :=
  SummarizedPage.mk (SummarizedPage.page_number s)
                    (SummarizedPage.heading_sentence s)
                    (firstn 3 (SummarizedPage.key_points s)).

(** The state with its summaries replaced. *)
Definition with_summarized_pages (ss : list SummarizedPage.t) (st : State.t) : State.t :=
  apply_write st (Set_summarized_pages ss).

(** The text of one summary in the search prompt. *)
Definition block_text (n : Z) (heading point1 point2 point3 : string) : string :=
  "Page " ++ str_of_int n ++ ":" ++ nl
    ++ "- **Heading Sentence**: " ++ heading ++ nl
    ++ "- **Key Points**:" ++ nl
    ++ "  1. " ++ point1 ++ nl
    ++ "  2. " ++ point2 ++ nl
    ++ "  3. " ++ point3.

(** The text of a summary that has its three key points. *)
Definition summary_text (s : SummarizedPage.t) : string :=
  block_text (SummarizedPage.page_number s) (SummarizedPage.heading_sentence s)
             (nth 0 (SummarizedPage.key_points s) EmptyString)
             (nth 1 (SummarizedPage.key_points s) EmptyString)
             (nth 2 (SummarizedPage.key_points s) EmptyString).

Module Cases.

(** The model denies the second of three claims. *)
Definition one_denied : collaborators :=
  Demo.world ["in"; "s1"; "s2"; "three"; "yes"; "no"; "yes"] (Some Demo.two_pages).

(** Two extracted pages bear the number 1. *)
Definition twin_pages : list Page.t :=
  [Page.mk 1 "Revenue grew 10% in Q1."; Page.mk 1 "Costs fell."; Page.mk 2 "Outlook."].

(** The PDF tool returns a dictionary without pages. *)
Definition no_page_list : collaborators := Demo.world ["in"] None.

(** The gateway fails at the second verification call alone. *)
Definition gateway_hiccup : collaborators :=
  {| llm := fun c prompt =>
              if Nat.eqb c 5 then Raise (ExternalError "gateway")
              else llm one_denied c prompt;
     pdf_tool := pdf_tool one_denied;
     input_parser := input_parser one_denied;
     summary_parser := summary_parser one_denied;
     search_result_list_parser := search_result_list_parser one_denied;
     verification_parser := verification_parser one_denied |}.

End Cases.

(** ** Folding a returned dictionary into the state *)

Lemma unchanged_refl (k : key) (s : State.t) : unchanged k s s.
Proof. destruct k; reflexivity. Qed.

Lemma unchanged_trans (k : key) (s1 s2 s3 : State.t) :
  unchanged k s1 s2 -> unchanged k s2 s3 -> unchanged k s1 s3.
Proof. destruct k; simpl; intros H12 H23; rewrite H23; exact H12. Qed.

Lemma apply_write_unchanged (k : key) (st : State.t) (w : write) :
  key_of w <> k -> unchanged k st (apply_write st w).
Proof.
  destruct st, w, k; simpl; intros Hk; try reflexivity; now contradiction Hk.
Qed.

Lemma apply_update_unchanged (k : key) (u : update) :
  forall st, ~ In k (keys u) -> unchanged k st (apply_update st u).
Proof.
  induction u as [|w u IH]; intros st Hk.
  - apply unchanged_refl.
  - simpl in Hk. unfold apply_update. simpl.
    apply unchanged_trans with (s2 := apply_write st w).
    + apply apply_write_unchanged. intros E. apply Hk. now left.
    + apply IH. intros Hin. apply Hk. now right.
Qed.

Lemma apply_write_messages (st : State.t) (w : write) :
  exists new, State.messages (apply_write st w) = (State.messages st ++ new)%list.
Proof.
  destruct st, w; simpl; try (exists []; now rewrite app_nil_r).
  now exists ms.
Qed.

Lemma apply_update_messages (u : update) :
  forall st, exists new, State.messages (apply_update st u) = (State.messages st ++ new)%list.
Proof.
  induction u as [|w u IH]; intros st.
  - exists []. simpl. now rewrite app_nil_r.
  - unfold apply_update. simpl.
    destruct (apply_write_messages st w) as [n1 H1].
    destruct (IH (apply_write st w)) as [n2 H2].
    exists (n1 ++ n2)%list. unfold apply_update in H2. rewrite H2, H1.
    now rewrite app_assoc.
Qed.

(** ** Running a chain of nodes *)

Lemma invoke_app (before after : list node) :
  forall st c,
    invoke (before ++ after)%list st c =
    let o := invoke before st c in
    match error o with
    | Some _ => o
    | None =>
        let o' := invoke after (final o) (calls o) in
        {| trace := (trace o ++ trace o')%list;
           final := final o';
           error := error o';
           calls := calls o' |}
    end.
Proof.
  induction before as [|n before IH]; intros st c; simpl.
  - now destruct (invoke after st c).
  - destruct (action n st c) as [[u c']|e]; simpl; [|reflexivity].
    rewrite IH. simpl.
    destruct (invoke before (apply_update st u) c') as [tr fi [err|] ca]; reflexivity.
Qed.

Lemma invoke_final (nodes : list node) :
  forall st c,
    final (invoke nodes st c) =
    fold_left (fun s e => apply_update s (snd e)) (trace (invoke nodes st c)) st.
Proof.
  induction nodes as [|n nodes IH]; intros st c; simpl; [reflexivity|].
  destruct (action n st c) as [[u c']|e]; simpl; [apply IH | reflexivity].
Qed.

Lemma invoke_cons_ok (n : node) (rest : list node) (st : State.t) (c : nat) :
  error (invoke (n :: rest) st c) = None ->
  exists u c',
    action n st c = Ok (u, c')
    /\ error (invoke rest (apply_update st u) c') = None
    /\ final (invoke (n :: rest) st c) = final (invoke rest (apply_update st u) c')
    /\ calls (invoke (n :: rest) st c) = calls (invoke rest (apply_update st u) c')
    /\ trace (invoke (n :: rest) st c)
       = (name n, u) :: trace (invoke rest (apply_update st u) c').
Proof.
  simpl. destruct (action n st c) as [[u c']|e]; simpl; [|discriminate].
  intros He. exists u, c'. repeat split. exact He.
Qed.

(** The names and key sets of a trace are an initial segment of those the
    chain announces, and all of them when the run is not stopped. *)
Lemma invoke_trace_shape (nodes : list node) :
  (forall n st c u c', In n nodes -> action n st c = Ok (u, c') ->
                       keys u = owned (name n)) ->
  forall st c,
    let o := invoke nodes st c in
    map (fun e => (fst e, keys (snd e))) (trace o) =
    firstn (length (trace o)) (map (fun n => (name n, owned (name n))) nodes)
    /\ (error o = None -> length (trace o) = length nodes).
Proof.
  induction nodes as [|n nodes IH]; intros Hkeys st c; simpl.
  - split; reflexivity.
  - destruct (action n st c) as [[u c']|e] eqn:E; simpl.
    + destruct (IH (fun n' st' c0 u' c1 Hin => Hkeys n' st' c0 u' c1 (or_intror Hin))
                  (apply_update st u) c') as [IH1 IH2].
      split.
      * rewrite (Hkeys n st c u c' (or_introl eq_refl) E). f_equal. exact IH1.
      * intros He. now rewrite IH2.
    + split; [reflexivity | discriminate].
Qed.

(** A key that no dictionary of the trace has is left as the run found it. *)
Lemma invoke_unchanged (k : key) (nodes : list node) :
  forall st c,
    Forall (fun e => ~ In k (keys (snd e))) (trace (invoke nodes st c)) ->
    unchanged k st (final (invoke nodes st c)).
Proof.
  induction nodes as [|n nodes IH]; intros st c; simpl.
  - intros _. apply unchanged_refl.
  - destruct (action n st c) as [[u c']|e]; simpl.
    + intros HF. inversion HF as [|x l Hx Hl]; subst.
      apply unchanged_trans with (s2 := apply_update st u).
      * now apply apply_update_unchanged.
      * now apply IH.
    + intros _. apply unchanged_refl.
Qed.

(** ** The fan-out *)

Lemma gather_length {A : Type} (tasks : list (M A)) :
  forall c slots c', gather tasks c = Ok (slots, c') -> length slots = length tasks.
Proof.
  induction tasks as [|t tasks IH]; intros c slots c'; simpl.
  - unfold ret. intros E. now inversion E.
  - unfold bind. destruct (t c) as [[a c1]|e]; [|discriminate].
    destruct (gather tasks c1) as [[l c2]|e] eqn:G; [|discriminate].
    unfold ret. intros E. inversion E; subst. simpl. f_equal. eapply IH, G.
Qed.

Lemma gather_cons {A : Type} (t : M A) (tasks : list (M A)) (c : nat) :
  gather (t :: tasks) c =
  match t c with
  | Raise e => Raise e
  | Ok (a, c1) =>
      match gather tasks c1 with
      | Raise e => Raise e
      | Ok (l, c2) => Ok (a :: l, c2)
      end
  end.
Proof.
  simpl. unfold bind. destruct (t c) as [[a c1]|e]; [|reflexivity].
  destruct (gather tasks c1) as [[l c2]|e]; reflexivity.
Qed.

Lemma keep_truthy_length {A : Type} (l : list (option A)) :
  length (keep_truthy l) <= length l.
Proof.
  induction l as [|[x|] l IH]; simpl; lia.
Qed.

Lemma keep_truthy_app {A : Type} (l1 l2 : list (option A)) :
  keep_truthy (l1 ++ l2)%list = (keep_truthy l1 ++ keep_truthy l2)%list.
Proof.
  induction l1 as [|[x|] l1 IH]; simpl; [reflexivity | now rewrite IH | exact IH].
Qed.

(** ** What each node returns *)

Section Stages.

Variable W : collaborators.

Lemma ainvoke_ok (prompt : string) (c : nat) (response : string) (c' : nat) :
  ainvoke W prompt c = Ok (response, c') ->
  llm W c prompt = Ok response /\ c' = S c.
Proof.
  unfold ainvoke. destruct (llm W c prompt) as [r|e]; [|discriminate].
  intros E. inversion E. now split.
Qed.

Lemma process_input_ok (st : State.t) (c : nat) (u : update) (c' : nat) :
  process_input W st c = Ok (u, c') ->
  exists parsed_data,
    u = [Set_pdf_path (InputData.pdf_path parsed_data);
         Set_query (InputData.query parsed_data)].
Proof.
  unfold process_input. destruct (last_item (State.messages st)) as [m|]; [|discriminate].
  unfold bind. destruct (ainvoke W _ c) as [[response c1]|e]; [|discriminate].
  destruct (parse (input_parser W) response) as [d|]; [|discriminate].
  unfold ret. intros E. inversion E. now exists d.
Qed.

Lemma process_pdf_ok (st : State.t) (u : update) :
  process_pdf W st = Ok u ->
  not_str (State.pdf_path st) = false /\ exists ps, u = [Set_extracted_pages ps].
Proof.
  unfold process_pdf. destruct (not_str (State.pdf_path st)); [discriminate|].
  destruct (pdf_tool W _) as [res|e]; [|discriminate].
  intros E. inversion E. split; [reflexivity|]. eexists. reflexivity.
Qed.

Lemma summarize_ok (page : Page.t) (c : nat) (summary : PageSummary.t) (c' : nat) :
  summarize W page c = Ok (summary, c') ->
  c' = S c
  /\ exists response,
      llm W c (summarize_prompt W (Page.page_number page) (Page.content page)) = Ok response
      /\ parse (summary_parser W) response = Some summary.
Proof.
  unfold summarize, bind.
  destruct (ainvoke W _ c) as [[response c1]|e] eqn:E; [|discriminate].
  apply ainvoke_ok in E. destruct E as [E ->].
  destruct (parse (summary_parser W) response) as [s|] eqn:P; [|discriminate].
  unfold ret. intros H. inversion H; subst. split; [reflexivity|]. now exists response.
Qed.

Lemma gather_summarize_calls (pages : list Page.t) :
  forall c summaries c',
    gather (map (summarize W) pages) c = Ok (summaries, c') -> c' = c + length pages.
Proof.
  induction pages as [|p pages IH]; intros c summaries c'.
  - simpl. unfold ret. intros E. inversion E. lia.
  - simpl map. rewrite gather_cons.
    destruct (summarize W p c) as [[s c1]|e] eqn:S1; [|discriminate].
    apply summarize_ok in S1. destruct S1 as [-> _].
    destruct (gather (map (summarize W) pages) (S c)) as [[l c2]|e] eqn:G; [|discriminate].
    intros E. inversion E; subst. apply IH in G. simpl. lia.
Qed.

Lemma summarize_page_ok (st : State.t) (c : nat) (u : update) (c' : nat) :
  summarize_page W st c = Ok (u, c') ->
  exists extracted_pages summarized_pages,
    State.extracted_pages st = Some extracted_pages
    /\ length summarized_pages = length extracted_pages
    /\ u = [Set_summarized_pages summarized_pages].
Proof.
  unfold summarize_page. destruct (State.extracted_pages st) as [eps|]; [|discriminate].
  unfold bind. destruct (gather (map (summarize W) eps) c) as [[l c1]|e] eqn:G; [|discriminate].
  unfold ret. intros E. inversion E; subst.
  exists eps. eexists. split; [reflexivity|]. split; [|reflexivity].
  apply gather_length in G. now rewrite !length_map in *.
Qed.

Lemma search_summaries_ok (st : State.t) (c : nat) (u : update) (c' : nat) :
  search_summaries W st c = Ok (u, c') ->
  not_str (State.query st) = false
  /\ not_list (State.summarized_pages st) = false
  /\ exists rs, u = [Set_search_results rs].
Proof.
  unfold search_summaries. destruct (not_str (State.query st)); [discriminate|].
  destruct (not_list (State.summarized_pages st)); [discriminate|].
  unfold bind. destruct (lift _ c) as [[blocks c1]|e]; [|discriminate].
  destruct (ainvoke W _ c1) as [[response c2]|e]; [|discriminate].
  destruct (parse (search_result_list_parser W) response) as [parsed|]; [|discriminate].
  unfold ret. intros E. inversion E. repeat split. eexists. reflexivity.
Qed.

Lemma verify_results_ok (st : State.t) (c : nat) (u : update) (c' : nat) :
  verify_results W st c = Ok (u, c') ->
  exists rs pages slots,
    State.search_results st = Some rs /\ rs <> []
    /\ State.extracted_pages st = Some pages /\ pages <> []
    /\ gather (map (verify W pages) rs) c = Ok (slots, c')
    /\ u = [Set_messages
              [Message.mk assistant
                 ("Verified Results:" ++ nl ++ nl ++ formatted (keep_truthy slots))];
            Set_verified_results (keep_truthy slots)].
Proof.
  unfold verify_results.
  destruct (State.search_results st) as [[|r rs]|]; cbn [not_list]; try discriminate.
  destruct (State.extracted_pages st) as [[|p pages]|]; cbn [not_list]; try discriminate.
  unfold bind.
  destruct (gather (map (verify W (p :: pages)) (r :: rs)) c)
    as [[slots c1]|e] eqn:G; [|discriminate].
  unfold ret. intros E. inversion E; subst.
  exists (r :: rs), (p :: pages), slots. repeat split; try discriminate. exact G.
Qed.

(** Every node returns the keys [owned] lists for it. *)
Lemma graph_keys (n : node) (st : State.t) (c : nat) (u : update) (c' : nat) :
  In n (graph W) -> action n st c = Ok (u, c') -> keys u = owned (name n).
Proof.
  unfold graph. simpl.
  intros [<-|[<-|[<-|[<-|[<-|[]]]]]]; simpl; intros E.
  - apply process_input_ok in E. destruct E as [d ->]. reflexivity.
  - unfold lift in E. destruct (process_pdf W st) as [u0|e] eqn:P; [|discriminate].
    inversion E; subst. apply process_pdf_ok in P. destruct P as [_ [ps ->]]. reflexivity.
  - apply summarize_page_ok in E. destruct E as (eps & sums & _ & _ & ->). reflexivity.
  - apply search_summaries_ok in E. destruct E as (_ & _ & rs & ->). reflexivity.
  - apply verify_results_ok in E.
    destruct E as (rs & pages & slots & _ & _ & _ & _ & _ & ->). reflexivity.
Qed.

(** *** One verification task *)

Lemma verify_unmatched (pages : list Page.t) (r : SearchResult.t) (c : nat) :
  matching pages (SearchResult.claimed_page r) = None ->
  verify W pages r c = Ok (None, c).
Proof. unfold verify. intros ->. reflexivity. Qed.

(** With a matching page, the task issues one call and turns the answer
    into its slot; only a failure of the call itself raises. *)
Lemma verify_matched (pages : list Page.t) (r : SearchResult.t) (c : nat)
      (page : Page.t) (response : string) :
  matching pages (SearchResult.claimed_page r) = Some page ->
  llm W c (verification_prompt W (SearchResult.claimed_page r)
             (SearchResult.content r) (Page.content page)) = Ok response ->
  verify W pages r c =
  Ok (match parse (verification_parser W) response with
      | Some vr =>
          if VerificationResult.valid vr
          then Some (VerifiedPoint.mk (SearchResult.content r)
                       ("Page " ++ str_of_int (SearchResult.claimed_page r))
                       (VerificationResult.explanation vr))
          else None
      | None => None
      end, S c).
Proof.
  unfold verify. intros -> L. unfold bind, ainvoke. rewrite L.
  destruct (parse (verification_parser W) response) as [vr|]; [|reflexivity].
  destruct (VerificationResult.valid vr); reflexivity.
Qed.

Lemma verify_ok (pages : list Page.t) (r : SearchResult.t) (c : nat)
      (slot : option VerifiedPoint.t) (c' : nat) :
  verify W pages r c = Ok (slot, c') ->
  judged W pages r slot /\ c <= c' <= S c.
Proof.
  destruct (matching pages (SearchResult.claimed_page r)) as [page|] eqn:Hm.
  - destruct (llm W c (verification_prompt W (SearchResult.claimed_page r)
                         (SearchResult.content r) (Page.content page)))
      as [response|e] eqn:L.
    + rewrite (verify_matched _ _ _ _ _ Hm L). intros E. inversion E; subst.
      split; [|lia].
      destruct (parse (verification_parser W) response) as [vr|] eqn:P.
      * destruct (VerificationResult.valid vr) eqn:V; simpl.
        -- exists vr. repeat split; auto. now exists page, c, response.
        -- right. right. exists vr. split; auto. now exists page, c, response.
      * simpl. right. left. now exists page, c, response.
    + unfold verify. rewrite Hm. unfold bind, ainvoke. rewrite L. discriminate.
  - rewrite (verify_unmatched _ _ _ Hm). intros E. inversion E; subst.
    split; [|lia]. simpl. now left.
Qed.

Lemma gather_verify_judged (pages : list Page.t) (rs : list SearchResult.t) :
  forall c slots c',
    gather (map (verify W pages) rs) c = Ok (slots, c') ->
    Forall2 (judged W pages) rs slots.
Proof.
  induction rs as [|r rs IH]; intros c slots c'.
  - simpl. unfold ret. intros E. inversion E. constructor.
  - simpl map. rewrite gather_cons.
    destruct (verify W pages r c) as [[slot c1]|e] eqn:V; [|discriminate].
    destruct (gather (map (verify W pages) rs) c1) as [[l c2]|e] eqn:G; [|discriminate].
    intros E. inversion E; subst. constructor.
    + now apply verify_ok in V.
    + eapply IH, G.
Qed.

End Stages.

(** ** Ownership of the state keys *)

Lemma writers_nil (k : key) : writers k [] = [].
Proof. reflexivity. Qed.

Lemma writers_cons (k : key) (n : string) (u : update) (tr : list (string * update)) :
  writers k ((n, u) :: tr) =
  if existsb (key_eqb k) (keys u) then n :: writers k tr else writers k tr.
Proof.
  unfold writers. simpl. destruct (existsb (key_eqb k) (keys u)); reflexivity.
Qed.

(** C8. Every node returns only the keys it owns and the graph leaves every
    other key as it was: in the trace of any run each dictionary has exactly
    the keys of its node, the nodes appear in the order of the chain, every
    key is returned by at most one node, which is its owner (and by exactly
    that one when the run is not stopped), the final state is the trace
    folded into the initial state, folding a dictionary changes no key it
    does not have, and [messages] is only ever extended. *)
Theorem stages_write_only_owned_keys (W : collaborators) (st : State.t) (c : nat) :
  let o := graph_invoke W st c in
  Forall (fun e => keys (snd e) = owned (fst e)) (trace o)
  /\ map fst (trace o) =
     firstn (length (trace o))
            ["process_input"; "process_pdf"; "summarize_page";
             "search_summaries"; "verify_results"]
  /\ (forall k, writers k (trace o) = [] \/ writers k (trace o) = [owner k])
  /\ (error o = None -> forall k, writers k (trace o) = [owner k])
  /\ final o = fold_left (fun s e => apply_update s (snd e)) (trace o) st
  /\ (forall s u k, ~ In k (keys u) -> unchanged k s (apply_update s u))
  /\ (forall s u, exists new,
         State.messages (apply_update s u) = (State.messages s ++ new)%list).
Proof.
  intros o.
  destruct (invoke_trace_shape (graph W) (fun n st c u c' => graph_keys W n st c u c') st c)
    as [Hshape Hfull].
  fold (graph_invoke W st c) in Hshape, Hfull. fold o in Hshape, Hfull.
  assert (Hfold : final o = fold_left (fun s e => apply_update s (snd e)) (trace o) st)
    by apply invoke_final.
  assert (Hframe : forall s u k, ~ In k (keys u) -> unchanged k s (apply_update s u))
    by (intros s u k; apply apply_update_unchanged).
  assert (Hmsg : forall s u, exists new,
               State.messages (apply_update s u) = (State.messages s ++ new)%list)
    by (intros s u; apply apply_update_messages).
  simpl in Hshape, Hfull.
  destruct (trace o) as [|[n1 u1] [|[n2 u2] [|[n3 u3] [|[n4 u4] [|[n5 u5] [|e6 tr]]]]]];
    simpl in Hshape; inversion Hshape; subst;
    (repeat split;
     [ repeat constructor; simpl; assumption
     | intros k; rewrite ?writers_cons, ?writers_nil;
       repeat match goal with H : keys _ = _ |- _ => rewrite H; clear H end;
       destruct k; simpl; auto
     | intros He; try (specialize (Hfull He); discriminate);
       intros k; rewrite ?writers_cons, ?writers_nil;
       repeat match goal with H : keys _ = _ |- _ => rewrite H; clear H end;
       destruct k; reflexivity
     | exact Hfold | exact Hframe | exact Hmsg ]).
Qed.

Lemma stages_write_only_owned_keys_witness :
  error (graph_invoke Demo.one_garbled Demo.hello 0) = None
  /\ writers k_summarized_pages (trace (graph_invoke Demo.one_garbled Demo.hello 0))
     = ["summarize_page"].
Proof.
  split; [reflexivity|].
  destruct (stages_write_only_owned_keys Demo.one_garbled Demo.hello 0)
    as (_ & _ & _ & H & _).
  exact (H eq_refl k_summarized_pages).
Defined.

(** ** Reaching the last node *)

Lemma graph_after_upstream (W : collaborators) (st0 : State.t) (c0 : nat) :
  graph_invoke W st0 c0 =
  let o := invoke (upstream W) st0 c0 in
  match error o with
  | Some _ => o
  | None =>
      let o' := invoke [verify_results_node W] (final o) (calls o) in
      {| trace := (trace o ++ trace o')%list;
         final := final o';
         error := error o';
         calls := calls o' |}
  end.
Proof.
  unfold graph_invoke.
  change (graph W) with (upstream W ++ [verify_results_node W])%list.
  apply invoke_app.
Qed.

(** When the first four nodes have returned, there are pages, the search
    results are set, and neither [messages] nor [verified_results] has been
    touched. *)
Lemma upstream_reaches_verify (W : collaborators) (st0 : State.t) (c0 : nat) :
  let o := invoke (upstream W) st0 c0 in
  error o = None ->
  exists pages rs,
    State.extracted_pages (final o) = Some pages /\ pages <> []
    /\ State.search_results (final o) = Some rs
    /\ State.messages (final o) = State.messages st0
    /\ State.verified_results (final o) = State.verified_results st0.
Proof.
  intros o. subst o. unfold upstream. intros He.
  apply invoke_cons_ok in He. destruct He as (u1 & c1 & E1 & He & -> & _).
  apply invoke_cons_ok in He. destruct He as (u2 & c2 & E2 & He & -> & _).
  apply invoke_cons_ok in He. destruct He as (u3 & c3 & E3 & He & -> & _).
  apply invoke_cons_ok in He. destruct He as (u4 & c4 & E4 & _ & -> & _).
  cbn [action process_input_node process_pdf_node
              summarize_page_node search_summaries_node] in E1, E2, E3, E4.
  apply process_input_ok in E1. destruct E1 as [d ->].
  unfold lift in E2.
  destruct (process_pdf W _) as [u2'|e2] eqn:P2; [|discriminate].
  inversion E2; subst u2' c2. clear E2.
  apply process_pdf_ok in P2. destruct P2 as [_ [ps ->]].
  apply summarize_page_ok in E3. destruct E3 as (eps & sums & Heps & Hlen & ->).
  apply search_summaries_ok in E4. destruct E4 as (_ & Hsums & rs & ->).
  destruct st0 as [ms pp q ep sp sr vr]. simpl in *.
  inversion Heps; subst eps.
  exists ps, rs. repeat split.
  destruct sums as [|s sums]; [discriminate|].
  destruct ps; [discriminate|discriminate].
Qed.

(** ** The guards of [verify_results] *)

(** C9. In every state whose search results are empty (or absent) or whose
    extracted pages are empty (or absent), [verify_results] raises a
    [ValueError]; a run of the graph that reaches the node in such a state
    stops there, with the state as the first four nodes left it:
    [verified_results] is not written and no message is appended. *)
Theorem verify_rejects_empty_inputs (W : collaborators) (st : State.t) (c : nat) :
  not_list (State.search_results st) = true
  \/ not_list (State.extracted_pages st) = true ->
  exists msg,
    msg = (if not_list (State.search_results st)
           then "No search results to verify."
           else "No extracted pages to verify against.")
    /\ verify_results W st c = Raise (ValueError msg)
    /\ forall st0 c0,
        error (invoke (upstream W) st0 c0) = None ->
        final (invoke (upstream W) st0 c0) = st ->
        calls (invoke (upstream W) st0 c0) = c ->
        graph_invoke W st0 c0 =
        {| trace := trace (invoke (upstream W) st0 c0);
           final := st;
           error := Some ("verify_results", ValueError msg);
           calls := c |}
        /\ State.verified_results st = State.verified_results st0
        /\ State.messages st = State.messages st0.
Proof.
  intros Hempty. eexists. split; [reflexivity|].
  assert (Hv : verify_results W st c =
               Raise (ValueError (if not_list (State.search_results st)
                                  then "No search results to verify."
                                  else "No extracted pages to verify against."))).
  { unfold verify_results.
    destruct (State.search_results st) as [[|r rs]|]; cbn [not_list]; try reflexivity.
    destruct Hempty as [H|H]; [discriminate|].
    destruct (State.extracted_pages st) as [[|p ps]|]; cbn [not_list];
      try reflexivity; discriminate. }
  split; [exact Hv|].
  intros st0 c0 He Hst Hc.
  destruct (upstream_reaches_verify W st0 c0 He) as (pages & rs & _ & _ & _ & Hm & Hvr).
  rewrite Hst in Hm, Hvr. repeat split; try assumption.
  rewrite graph_after_upstream. cbv zeta. rewrite He, Hst, Hc.
  cbn [invoke action verify_results_node]. rewrite Hv. simpl.
  now rewrite app_nil_r.
Qed.

Lemma verify_rejects_empty_inputs_witness :
  let o := invoke (upstream Demo.no_results) Demo.hello 0 in
  error (graph_invoke Demo.no_results Demo.hello 0)
  = Some ("verify_results", ValueError "No search results to verify.")
  /\ State.verified_results (final o) = None
  /\ State.messages (final o) = State.messages Demo.hello.
Proof.
  intros o.
  destruct (verify_rejects_empty_inputs Demo.no_results (final o) (calls o))
    as (msg & Hmsg & _ & H).
  - left. reflexivity.
  - destruct (H Demo.hello 0 eq_refl eq_refl eq_refl) as (Hg & Hvr & Hm).
    rewrite Hg. subst msg. repeat split; assumption.
Defined.

(** ** A garbled page summary *)

Section Summarize.

Variable W : collaborators.

Lemma summarize_garbled (page : Page.t) (c : nat) (response : string) :
  llm W c (summarize_prompt W (Page.page_number page) (Page.content page)) = Ok response ->
  parse (summary_parser W) response = None ->
  summarize W page c = Raise OutputParserException.
Proof.
  intros L P. unfold summarize, bind, ainvoke. rewrite L, P. reflexivity.
Qed.

(** The fan-out over the pages raises as soon as one of its tasks does. *)
Lemma gather_summarize_raises (pages : list Page.t) :
  forall c k page,
    nth_error pages k = Some page ->
    is_raise (summarize W page (c + k)) = true ->
    is_raise (gather (map (summarize W) pages) c) = true.
Proof.
  induction pages as [|p pages IH]; intros c k page Hk Hr.
  - destruct k; discriminate.
  - simpl map. rewrite gather_cons.
    destruct (summarize W p c) as [[s c1]|e] eqn:S1; [|reflexivity].
    destruct (summarize_ok W p c s c1 S1) as [-> _].
    destruct k as [|k]; simpl in Hk.
    + inversion Hk; subst. rewrite Nat.add_0_r, S1 in Hr. discriminate.
    + replace (c + S k) with (S c + k) in Hr by lia.
      specialize (IH (S c) k page Hk Hr).
      destruct (gather (map (summarize W) pages) (S c)) as [[l c2]|e];
        [discriminate | reflexivity].
Qed.

(** After [process_input] and [process_pdf], no summary has been written. *)
Lemma extract_reached (st0 : State.t) (c0 : nat) :
  error (invoke [process_input_node W; process_pdf_node W] st0 c0) = None ->
  State.summarized_pages (final (invoke [process_input_node W; process_pdf_node W] st0 c0))
  = State.summarized_pages st0
  /\ writers k_summarized_pages
             (trace (invoke [process_input_node W; process_pdf_node W] st0 c0)) = [].
Proof.
  intros He.
  apply invoke_cons_ok in He. destruct He as (u1 & c1 & E1 & He & -> & _ & ->).
  apply invoke_cons_ok in He. destruct He as (u2 & c2 & E2 & _ & -> & _ & ->).
  cbn [action process_input_node process_pdf_node] in E1, E2.
  apply process_input_ok in E1. destruct E1 as [d ->].
  unfold lift in E2.
  destruct (process_pdf W _) as [u2'|e2] eqn:P2; [|discriminate].
  inversion E2; subst u2' c2. clear E2.
  apply process_pdf_ok in P2. destruct P2 as [_ [ps ->]].
  destruct st0. split; reflexivity.
Qed.

End Summarize.

(** C2. If the answer of the gateway for one page does not parse as a page
    summary, [summarize_page] raises; a run of the graph that reaches the
    node in that state stops there: no dictionary of the trace has the key
    [summarized_pages] and the state keeps the value the run started with. *)
Theorem summarize_parse_failure_is_fatal
        (W : collaborators) (st : State.t) (c : nat)
        (pages : list Page.t) (k : nat) (page : Page.t) (response : string) :
  State.extracted_pages st = Some pages ->
  nth_error pages k = Some page ->
  llm W (c + k) (summarize_prompt W (Page.page_number page) (Page.content page))
  = Ok response ->
  parse (summary_parser W) response = None ->
  exists e,
    summarize_page W st c = Raise e
    /\ forall st0 c0,
        error (invoke [process_input_node W; process_pdf_node W] st0 c0) = None ->
        final (invoke [process_input_node W; process_pdf_node W] st0 c0) = st ->
        calls (invoke [process_input_node W; process_pdf_node W] st0 c0) = c ->
        graph_invoke W st0 c0 =
        {| trace := trace (invoke [process_input_node W; process_pdf_node W] st0 c0);
           final := st;
           error := Some ("summarize_page", e);
           calls := c |}
        /\ State.summarized_pages st = State.summarized_pages st0
        /\ writers k_summarized_pages (trace (graph_invoke W st0 c0)) = [].
Proof.
  intros Hpages Hk L P.
  assert (Hg : is_raise (gather (map (summarize W) pages) c) = true).
  { apply gather_summarize_raises with (k := k) (page := page); [exact Hk|].
    now rewrite (summarize_garbled W page (c + k) response L P). }
  destruct (gather (map (summarize W) pages) c) as [[l c1]|e] eqn:G; [discriminate|].
  assert (Hs : summarize_page W st c = Raise e).
  { unfold summarize_page. rewrite Hpages. unfold bind. now rewrite G. }
  exists e. split; [exact Hs|].
  intros st0 c0 He Hst Hc.
  destruct (extract_reached W st0 c0 He) as [Hsum Hwr].
  assert (Hrun : graph_invoke W st0 c0 =
                 {| trace := trace (invoke [process_input_node W; process_pdf_node W] st0 c0);
                    final := st;
                    error := Some ("summarize_page", e);
                    calls := c |}).
  { unfold graph_invoke.
    change (graph W) with
      ([process_input_node W; process_pdf_node W]
         ++ [summarize_page_node W; search_summaries_node W; verify_results_node W])%list.
    rewrite invoke_app. cbv zeta. rewrite He, Hst, Hc.
    cbn [invoke action summarize_page_node]. rewrite Hs. simpl.
    now rewrite app_nil_r. }
  split; [exact Hrun|]. split.
  - rewrite <- Hst. exact Hsum.
  - rewrite Hrun. exact Hwr.
Qed.

Lemma summarize_parse_failure_is_fatal_witness :
  error (graph_invoke Demo.garbled_summary Demo.hello 0)
  = Some ("summarize_page", OutputParserException)
  /\ State.summarized_pages (final (graph_invoke Demo.garbled_summary Demo.hello 0))
     = Some [].
Proof.
  destruct (summarize_parse_failure_is_fatal
              Demo.garbled_summary
              (final (invoke [process_input_node Demo.garbled_summary;
                              process_pdf_node Demo.garbled_summary] Demo.hello 0))
              1 Demo.two_pages 1
              (Page.mk 2 "Customer satisfaction improved.") "garbage"
              eq_refl eq_refl eq_refl eq_refl)
    as (e & Hs & H).
  destruct (H Demo.hello 0 eq_refl eq_refl eq_refl) as (Hg & Hsum & _).
  rewrite Hg. simpl. split.
  - vm_compute in Hs. inversion Hs. reflexivity.
  - exact Hsum.
Defined.

(** ** [process_pdf] *)

Lemma rebuild_pages (ps : list Page.t) :
  map (fun page => Page.mk (Page.page_number page) (Page.content page)) ps = ps.
Proof.
  induction ps as [|[n t] ps IH]; simpl; [reflexivity | now rewrite IH].
Qed.

Lemma invoke_raises (n : node) (rest : list node) (st : State.t) (c : nat) (e : exn) :
  action n st c = Raise e ->
  invoke (n :: rest) st c =
  {| trace := []; final := st; error := Some (name n, e); calls := c |}.
Proof. simpl. intros ->. reflexivity. Qed.

(** C3, as the code has it.  [process_pdf] raises, and stops the run before
    [extracted_pages] is written, when the path is empty or absent; when the
    path is not empty and the PDF tool returns, it writes the pages of the
    tool, in their order, and no page at all when the tool reports none;
    an exception of the tool is raised as it is. *)
Theorem process_pdf_fails_on_empty_path_only (W : collaborators) (st : State.t) :
  (not_str (State.pdf_path st) = true ->
   process_pdf W st = Raise (ValueError "PDF path not found.")
   /\ forall rest c,
       invoke (process_pdf_node W :: rest) st c =
       {| trace := [];
          final := st;
          error := Some ("process_pdf", ValueError "PDF path not found.");
          calls := c |})
  /\ (forall p pdf_result,
         State.pdf_path st = Some p -> p <> EmptyString ->
         pdf_tool W p = Ok pdf_result ->
         let pages := match PdfResult.pages pdf_result with
                      | Some ps => ps
                      | None => []
                      end in
         process_pdf W st = Ok [Set_extracted_pages pages]
         /\ State.extracted_pages (apply_update st [Set_extracted_pages pages]) = Some pages)
  /\ (forall p e,
         State.pdf_path st = Some p -> p <> EmptyString ->
         pdf_tool W p = Raise e ->
         process_pdf W st = Raise e).
Proof.
  split; [|split].
  - intros Hp.
    assert (H : process_pdf W st = Raise (ValueError "PDF path not found."))
      by (unfold process_pdf; now rewrite Hp).
    split; [exact H|]. intros rest c.
    apply (invoke_raises (process_pdf_node W)). simpl. unfold lift. now rewrite H.
  - intros p res Hp Hne Ht pages. unfold process_pdf. rewrite Hp.
    destruct p as [|a p]; [now contradiction Hne|]. cbn [not_str]. rewrite Ht.
    rewrite rebuild_pages. split; [reflexivity|]. now destruct st.
  - intros p e Hp Hne Ht. unfold process_pdf. rewrite Hp.
    destruct p as [|a p]; [now contradiction Hne|]. cbn [not_str]. now rewrite Ht.
Qed.

Lemma process_pdf_fails_on_empty_path_only_witness :
  error (graph_invoke Demo.no_path Demo.hello 0)
  = Some ("process_pdf", ValueError "PDF path not found.")
  /\ process_pdf Demo.one_garbled (Demo.verify_state [])
     = Ok [Set_extracted_pages Demo.two_pages].
Proof.
  split.
  - destruct (process_pdf_fails_on_empty_path_only
                Demo.no_path
                (final (invoke [process_input_node Demo.no_path] Demo.hello 0)))
      as [H _].
    destruct (H eq_refl) as [_ Hrun].
    unfold graph_invoke.
    change (graph Demo.no_path) with
      ([process_input_node Demo.no_path]
         ++ process_pdf_node Demo.no_path
         :: [summarize_page_node Demo.no_path; search_summaries_node Demo.no_path;
             verify_results_node Demo.no_path])%list.
    rewrite invoke_app. cbv zeta.
    change (error (invoke [process_input_node Demo.no_path] Demo.hello 0)) with
      (@None (string * exn)).
    cbv iota. rewrite Hrun. reflexivity.
  - destruct (process_pdf_fails_on_empty_path_only
                Demo.one_garbled (Demo.verify_state [])) as (_ & H & _).
    refine (proj1 (H "report.pdf" (PdfResult.mk (Some Demo.two_pages)) eq_refl _ eq_refl)).
    discriminate.
Defined.

(** The claim fails where the PDF tool reports no page: [process_pdf]
    returns, the graph writes an empty [extracted_pages], and the run is
    stopped two nodes later, by [search_summaries]. *)
Lemma process_pdf_accepts_zero_pages :
  pdf_tool Demo.no_pages "report.pdf" = Ok (PdfResult.mk (Some []))
  /\ process_pdf Demo.no_pages (Demo.verify_state []) = Ok [Set_extracted_pages []]
  /\ trace (graph_invoke Demo.no_pages Demo.hello 0)
     = [("process_input", [Set_pdf_path "report.pdf"; Set_query "financial performance"]);
        ("process_pdf", [Set_extracted_pages []]);
        ("summarize_page", [Set_summarized_pages []])]
  /\ error (graph_invoke Demo.no_pages Demo.hello 0)
     = Some ("search_summaries", ValueError "Summaries not found.").
Proof. repeat split. Qed.

(** ** [search_summaries] and the key points *)

Lemma summary_block_short (s : SummarizedPage.t) :
  length (SummarizedPage.key_points s) < 3 -> summary_block s = Raise IndexError.
Proof.
  unfold summary_block, index.
  destruct (SummarizedPage.key_points s) as [|p1 [|p2 [|p3 kp]]]; simpl; intros H;
    try reflexivity; lia.
Qed.

Lemma summary_block_raises (s : SummarizedPage.t) (e : exn) :
  summary_block s = Raise e -> e = IndexError.
Proof.
  unfold summary_block, index.
  destruct (SummarizedPage.key_points s) as [|p1 [|p2 [|p3 kp]]]; simpl; intros H;
    inversion H; reflexivity.
Qed.

Lemma for_each_summary_block_short (summaries : list SummarizedPage.t) (s : SummarizedPage.t) :
  In s summaries ->
  length (SummarizedPage.key_points s) < 3 ->
  for_each summary_block summaries = Raise IndexError.
Proof.
  induction summaries as [|x summaries IH]; intros Hin Hs; [contradiction|].
  simpl. destruct (summary_block x) as [b|e] eqn:B.
  - destruct Hin as [->|Hin].
    + rewrite (summary_block_short s Hs) in B. discriminate.
    + now rewrite (IH Hin Hs).
  - now rewrite (summary_block_raises x e B).
Qed.

(** C10, as the code has it.  [search_summaries] reads the key points 0, 1
    and 2 of every summary and no other; in every state with a query that
    is not empty in which some summary has fewer than three key points it
    raises [IndexError] and the run stops at the node; nothing before it
    checks the number of key points: [summarize] returns whatever page
    summary the parser accepted. *)
Theorem search_needs_three_key_points
        (W : collaborators) (st : State.t) (c : nat)
        (summaries : list SummarizedPage.t) (summary : SummarizedPage.t) :
  not_str (State.query st) = false ->
  State.summarized_pages st = Some summaries ->
  In summary summaries ->
  length (SummarizedPage.key_points summary) < 3 ->
  search_summaries W st c = Raise IndexError
  /\ (forall rest,
         invoke (search_summaries_node W :: rest) st c =
         {| trace := []; final := st;
            error := Some ("search_summaries", IndexError); calls := c |})
  /\ (forall s,
         summary_block s =
         summary_block (SummarizedPage.mk (SummarizedPage.page_number s)
                                          (SummarizedPage.heading_sentence s)
                                          (firstn 3 (SummarizedPage.key_points s))))
  /\ (forall page c0 response parsed,
         llm W c0 (summarize_prompt W (Page.page_number page) (Page.content page))
         = Ok response ->
         parse (summary_parser W) response = Some parsed ->
         summarize W page c0 = Ok (parsed, S c0)).
Proof.
  intros Hq Hsum Hin Hshort.
  assert (H : search_summaries W st c = Raise IndexError).
  { unfold search_summaries. rewrite Hq, Hsum.
    destruct summaries as [|x summaries]; [contradiction|]. cbn [not_list].
    unfold bind, lift.
    now rewrite (for_each_summary_block_short (x :: summaries) summary Hin Hshort). }
  split; [exact H|]. split; [|split].
  - intros rest. now apply (invoke_raises (search_summaries_node W)).
  - intros s. unfold summary_block, index. simpl.
    destruct (SummarizedPage.key_points s) as [|p1 [|p2 [|p3 kp]]]; reflexivity.
  - intros page c0 response parsed L P. unfold summarize, bind, ainvoke.
    now rewrite L, P.
Qed.

Lemma search_needs_three_key_points_witness :
  error (graph_invoke Demo.short_summary Demo.hello 0)
  = Some ("search_summaries", IndexError).
Proof.
  destruct (search_needs_three_key_points
              Demo.short_summary
              (final (invoke (firstn 3 (graph Demo.short_summary)) Demo.hello 0))
              3
              [SummarizedPage.mk 1 "Revenue" ["grew"; "10%"; "Q1"];
               SummarizedPage.mk 2 "Customers" ["satisfied"; "improved"]]
              (SummarizedPage.mk 2 "Customers" ["satisfied"; "improved"])
              eq_refl eq_refl (or_intror (or_introl eq_refl)))
    as (_ & Hrun & _).
  - simpl. lia.
  - unfold graph_invoke.
    change (graph Demo.short_summary) with
      (firstn 3 (graph Demo.short_summary)
         ++ search_summaries_node Demo.short_summary
         :: [verify_results_node Demo.short_summary])%list.
    rewrite invoke_app. cbv zeta.
    change (error (invoke (firstn 3 (graph Demo.short_summary)) Demo.hello 0)) with
      (@None (string * exn)).
    cbv iota.
    change (calls (invoke (firstn 3 (graph Demo.short_summary)) Demo.hello 0)) with 3.
    rewrite Hrun. reflexivity.
Defined.

(** The claim fails where the query is empty: the summary of the second
    page has two key points, and [search_summaries] raises the [ValueError]
    of its first guard, not an out-of-range error. *)
Lemma search_checks_query_before_key_points :
  error (invoke (firstn 3 (graph Demo.short_summary_no_query)) Demo.hello 0) = None
  /\ State.summarized_pages
       (final (invoke (firstn 3 (graph Demo.short_summary_no_query)) Demo.hello 0))
     = Some [SummarizedPage.mk 1 "Revenue" ["grew"; "10%"; "Q1"];
             SummarizedPage.mk 2 "Customers" ["satisfied"; "improved"]]
  /\ search_summaries Demo.short_summary_no_query
       (final (invoke (firstn 3 (graph Demo.short_summary_no_query)) Demo.hello 0)) 3
     = Raise (ValueError "Query not found.")
  /\ error (graph_invoke Demo.short_summary_no_query Demo.hello 0)
     = Some ("search_summaries", ValueError "Query not found.").
Proof. repeat split. Qed.

(** ** The verification fan-out *)

Lemma gather_app {A : Type} (l1 l2 : list (M A)) :
  forall c,
    gather (l1 ++ l2)%list c =
    match gather l1 c with
    | Raise e => Raise e
    | Ok (s1, c1) =>
        match gather l2 c1 with
        | Raise e => Raise e
        | Ok (s2, c2) => Ok ((s1 ++ s2)%list, c2)
        end
    end.
Proof.
  induction l1 as [|t l1 IH]; intros c.
  - simpl. unfold ret. destruct (gather l2 c) as [[s2 c2]|e]; reflexivity.
  - rewrite <- app_comm_cons, !gather_cons.
    destruct (t c) as [[a c1]|e]; [|reflexivity].
    rewrite IH. destruct (gather l1 c1) as [[s1 c2]|e]; [|reflexivity].
    destruct (gather l2 c2) as [[s2 c3]|e]; reflexivity.
Qed.

Section Verify.

Variable W : collaborators.
Variable pages : list Page.t.

Lemma gather_verify_answered (rs : list SearchResult.t) :
  forall c,
    (forall i r, nth_error rs i = Some r ->
                 exists response, answered_at W pages c i r response) ->
    exists slots,
      gather (map (verify W pages) rs) c = Ok (slots, c + length rs)
      /\ forall i r, nth_error rs i = Some r ->
                     exists slot, nth_error slots i = Some slot
                                  /\ verify W pages r (c + i) = Ok (slot, S (c + i)).
Proof.
  induction rs as [|r rs IH]; intros c Hall.
  - exists []. split.
    + simpl. unfold ret. now rewrite Nat.add_0_r.
    + intros [|i] r H; discriminate.
  - destruct (Hall 0 r eq_refl) as (response & page & Hm & L).
    rewrite Nat.add_0_r in L.
    pose proof (verify_matched W pages r c page response Hm L) as V.
    destruct (IH (S c)) as (slots & G & Hslots).
    { intros i r' Hi. destruct (Hall (S i) r' Hi) as (resp' & page' & Hm' & L').
      exists resp', page'. split; [exact Hm'|].
      now replace (S c + i) with (c + S i) by lia. }
    eexists (_ :: slots). split.
    + simpl map. rewrite gather_cons, V, G. simpl length.
      now replace (S c + length rs) with (c + S (length rs)) by lia.
    + intros [|i] r' Hi; simpl in Hi.
      * inversion Hi; subst r'. eexists. split; [reflexivity|].
        now rewrite Nat.add_0_r.
      * destruct (Hslots i r' Hi) as (slot & Hn & Hv).
        exists slot. split; [exact Hn|].
        now replace (c + S i) with (S c + i) by lia.
Qed.

Lemma keep_truthy_all_none (slots : list (option VerifiedPoint.t)) :
  (forall i slot, nth_error slots i = Some slot -> slot = None) ->
  keep_truthy slots = [].
Proof.
  induction slots as [|s slots IH]; intros H; [reflexivity|].
  rewrite (H 0 s eq_refl). simpl. apply IH. intros i slot Hi. exact (H (S i) slot Hi).
Qed.

(** Past its two guards, [verify_results] is the fan-out, the filter and
    the message. *)
Lemma verify_results_run (st : State.t) (c : nat) (rs : list SearchResult.t) :
  State.search_results st = Some rs -> rs <> [] ->
  State.extracted_pages st = Some pages -> pages <> [] ->
  verify_results W st c =
  match gather (map (verify W pages) rs) c with
  | Raise e => Raise e
  | Ok (slots, c') =>
      Ok ([Set_messages
             [Message.mk assistant
                ("Verified Results:" ++ nl ++ nl ++ formatted (keep_truthy slots))];
           Set_verified_results (keep_truthy slots)], c')
  end.
Proof.
  intros Hrs Hne Hps Hpne. unfold verify_results. rewrite Hrs, Hps.
  destruct rs as [|r rs]; [now contradiction Hne|].
  destruct pages as [|p ps]; [now contradiction Hpne|].
  cbn [not_list]. unfold bind.
  destruct (gather (map (verify W (p :: ps)) (r :: rs)) c) as [[slots c1]|e];
    reflexivity.
Qed.

(** A search result without a page leaves the slots of the others, and
    the calls they issue, as they are without it. *)
Lemma gather_verify_unmatched (before after : list SearchResult.t) (r : SearchResult.t) (c : nat) :
  matching pages (SearchResult.claimed_page r) = None ->
  gather (map (verify W pages) (before ++ r :: after)%list) c =
  match gather (map (verify W pages) before) c with
  | Raise e => Raise e
  | Ok (s1, c1) =>
      match gather (map (verify W pages) after) c1 with
      | Raise e => Raise e
      | Ok (s2, c2) => Ok ((s1 ++ None :: s2)%list, c2)
      end
  end.
Proof.
  intros Hm. rewrite map_app, gather_app. simpl map.
  destruct (gather (map (verify W pages) before) c) as [[s1 c1]|e]; [|reflexivity].
  rewrite gather_cons, (verify_unmatched W pages r c1 Hm).
  destruct (gather (map (verify W pages) after) c1) as [[s2 c2]|e]; reflexivity.
Qed.

End Verify.

(** C1, as the code has it.  In the fan-out of [verify_results], when the
    answer to the verification call of the search result at position [k]
    does not parse and every other search result is asserted valid, the
    fan-out returns one slot per search result, in their order: [None] at
    position [k] and, at every other position, the record its own task
    returns.  The isolation is the task's: the fan-out itself raises what a
    task raises, as in [summarize_page]. *)
Theorem verify_fan_out_isolates_garbled_answer
        (W : collaborators) (pages : list Page.t) (rs : list SearchResult.t) (c k : nat) :
  k < length rs ->
  (forall i r,
      nth_error rs i = Some r ->
      exists response,
        answered_at W pages c i r response
        /\ if Nat.eqb i k
           then parse (verification_parser W) response = None
           else exists vr, parse (verification_parser W) response = Some vr
                           /\ VerificationResult.valid vr = true) ->
  (exists slots,
      gather (map (verify W pages) rs) c = Ok (slots, c + length rs)
      /\ length slots = length rs
      /\ nth_error slots k = Some None
      /\ forall i r,
          i <> k -> nth_error rs i = Some r ->
          exists v,
            nth_error slots i = Some (Some v)
            /\ verify W pages r (c + i) = Ok (Some v, S (c + i))
            /\ judged W pages r (Some v))
  /\ (forall ps cs j p,
         nth_error ps j = Some p ->
         is_raise (summarize W p (cs + j)) = true ->
         is_raise (gather (map (summarize W) ps) cs) = true).
Proof.
  intros Hk Hall. split; [|intros ps cs j p; apply gather_summarize_raises].
  destruct (gather_verify_answered W pages rs c) as (slots & G & Hslots).
  { intros i r Hi. destruct (Hall i r Hi) as (response & Ha & _). now exists response. }
  exists slots. split; [exact G|].
  split; [apply gather_length in G; now rewrite length_map in G|].
  split.
  - destruct (nth_error rs k) as [r|] eqn:Hr;
      [|apply nth_error_None in Hr; lia].
    destruct (Hslots k r Hr) as (slot & Hn & Hv).
    destruct (Hall k r Hr) as (response & (page & Hm & L) & Hp).
    rewrite Nat.eqb_refl in Hp.
    rewrite (verify_matched W pages r (c + k) page response Hm L), Hp in Hv.
    inversion Hv; subst. exact Hn.
  - intros i r Hik Hr.
    destruct (Hslots i r Hr) as (slot & Hn & Hv).
    destruct (Hall i r Hr) as (response & (page & Hm & L) & Hp).
    apply Nat.eqb_neq in Hik. rewrite Hik in Hp. destruct Hp as (vr & Hp & Hvalid).
    pose proof Hv as Hv'.
    rewrite (verify_matched W pages r (c + i) page response Hm L), Hp, Hvalid in Hv'.
    inversion Hv'; subst slot. eexists. split; [exact Hn|]. split; [exact Hv|].
    apply verify_ok in Hv. exact (proj1 Hv).
Qed.

Lemma verify_fan_out_isolates_garbled_answer_witness :
  gather (map (verify Demo.one_garbled Demo.two_pages)
              [Demo.claim 1; SearchResult.mk "Customers are happy" 2; Demo.claim 1]) 4
  = Ok ([Some (VerifiedPoint.mk "Revenue grew 10%" "Page 1" "matches the page");
         None;
         Some (VerifiedPoint.mk "Revenue grew 10%" "Page 1" "matches the page")], 7).
Proof.
  destruct (verify_fan_out_isolates_garbled_answer
              Demo.one_garbled Demo.two_pages
              [Demo.claim 1; SearchResult.mk "Customers are happy" 2; Demo.claim 1] 4 1)
    as [(slots & G & _) _].
  - simpl. lia.
  - intros [|[|[|i]]] r Hi; simpl in Hi;
      [inversion Hi; subst | inversion Hi; subst | inversion Hi; subst
       | destruct i; discriminate].
    + exists "yes". split.
      * exists (Page.mk 1 "Revenue grew 10% in Q1."). split; reflexivity.
      * simpl. eexists. split; reflexivity.
    + exists "garbage". split.
      * exists (Page.mk 2 "Customer satisfaction improved."). split; reflexivity.
      * reflexivity.
    + exists "yes". split.
      * exists (Page.mk 1 "Revenue grew 10% in Q1."). split; reflexivity.
      * simpl. eexists. split; reflexivity.
  - rewrite G. vm_compute in G. inversion G. reflexivity.
Defined.

(** The claim fails in the fan-out of [summarize_page]: the task of the
    first page returns its summary, the answer for the second page does not
    parse, and the fan-out raises instead of returning two slots. *)
Lemma summarize_fan_out_aborts :
  summarize Demo.garbled_summary (Page.mk 1 "Revenue grew 10% in Q1.") 1
  = Ok (PageSummary.mk 1 "Revenue" ["grew"; "10%"; "Q1"], 2)
  /\ summarize Demo.garbled_summary (Page.mk 2 "Customer satisfaction improved.") 2
     = Raise OutputParserException
  /\ gather (map (summarize Demo.garbled_summary) Demo.two_pages) 1
     = Raise OutputParserException
  /\ forall slots c', gather (map (summarize Demo.garbled_summary) Demo.two_pages) 1
                      <> Ok (slots, c').
Proof. repeat split. intros slots c'. discriminate. Qed.

(** ** Every verification answer garbled *)

(** C6. When the search results are not empty and the answer to every
    verification call does not parse, [verify_results] returns: the
    verified results are the empty list and the message is the header
    alone; a run of the graph that reaches the node in that state is not
    stopped and ends with that message appended and [verified_results]
    empty. *)
Theorem verify_survives_all_garbled
        (W : collaborators) (st : State.t) (c : nat)
        (pages : list Page.t) (rs : list SearchResult.t) :
  State.search_results st = Some rs ->
  rs <> [] ->
  State.extracted_pages st = Some pages ->
  (forall i r,
      nth_error rs i = Some r ->
      exists response,
        answered_at W pages c i r response
        /\ parse (verification_parser W) response = None) ->
  verify_results W st c =
  Ok ([Set_messages [Message.mk assistant ("Verified Results:" ++ nl ++ nl)];
       Set_verified_results []], c + length rs)
  /\ forall st0 c0,
      error (invoke (upstream W) st0 c0) = None ->
      final (invoke (upstream W) st0 c0) = st ->
      calls (invoke (upstream W) st0 c0) = c ->
      error (graph_invoke W st0 c0) = None
      /\ State.verified_results (final (graph_invoke W st0 c0)) = Some []
      /\ State.messages (final (graph_invoke W st0 c0))
         = (State.messages st0
              ++ [Message.mk assistant ("Verified Results:" ++ nl ++ nl)])%list.
Proof.
  intros Hrs Hne Hps Hall.
  assert (Hpne : pages <> []).
  { destruct rs as [|r rs]; [now contradiction Hne|].
    destruct (Hall 0 r eq_refl) as (response & (page & Hm & _) & _).
    intros ->. discriminate. }
  destruct (gather_verify_answered W pages rs c) as (slots & G & Hslots).
  { intros i r Hi. destruct (Hall i r Hi) as (response & Ha & _). now exists response. }
  assert (Hnone : keep_truthy slots = []).
  { apply keep_truthy_all_none. intros i slot Hi.
    assert (Hlen : i < length rs).
    { apply gather_length in G. rewrite length_map in G. rewrite <- G.
      apply nth_error_Some. now rewrite Hi. }
    destruct (nth_error rs i) as [r|] eqn:Hr; [|apply nth_error_None in Hr; lia].
    destruct (Hslots i r Hr) as (slot' & Hn & Hv).
    rewrite Hi in Hn. inversion Hn; subst slot'.
    destruct (Hall i r Hr) as (response & (page & Hm & L) & Hp).
    rewrite (verify_matched W pages r (c + i) page response Hm L), Hp in Hv.
    now inversion Hv. }
  assert (Hv : verify_results W st c =
               Ok ([Set_messages [Message.mk assistant ("Verified Results:" ++ nl ++ nl)];
                    Set_verified_results []], c + length rs)).
  { rewrite (verify_results_run W pages st c rs Hrs Hne Hps Hpne), G, Hnone.
    reflexivity. }
  split; [exact Hv|].
  intros st0 c0 He Hst Hc.
  destruct (upstream_reaches_verify W st0 c0 He) as (ps' & rs' & _ & _ & _ & Hm & _).
  rewrite Hst in Hm.
  rewrite graph_after_upstream. cbv zeta. rewrite He, Hst, Hc.
  cbn [invoke action verify_results_node]. rewrite Hv. cbn [error final trace calls].
  repeat split.
  - now destruct st.
  - destruct st. simpl in *. now rewrite Hm.
Qed.

Lemma verify_survives_all_garbled_witness :
  error (graph_invoke Demo.all_garbled Demo.hello 0) = None
  /\ State.verified_results (final (graph_invoke Demo.all_garbled Demo.hello 0)) = Some []
  /\ State.messages (final (graph_invoke Demo.all_garbled Demo.hello 0))
     = [Message.mk user "report.pdf: financial performance";
        Message.mk assistant ("Verified Results:" ++ nl ++ nl)].
Proof.
  destruct (verify_survives_all_garbled
              Demo.all_garbled
              (final (invoke (upstream Demo.all_garbled) Demo.hello 0)) 4
              Demo.two_pages
              [Demo.claim 1; SearchResult.mk "Customers are happy" 2; Demo.claim 1]
              eq_refl) as [_ H].
  - discriminate.
  - reflexivity.
  - intros [|[|[|i]]] r Hi; simpl in Hi;
      [inversion Hi; subst | inversion Hi; subst | inversion Hi; subst
       | destruct i; discriminate].
    + exists "x". split; [|reflexivity].
      exists (Page.mk 1 "Revenue grew 10% in Q1."). split; reflexivity.
    + exists "y". split; [|reflexivity].
      exists (Page.mk 2 "Customer satisfaction improved."). split; reflexivity.
    + exists "z". split; [|reflexivity].
      exists (Page.mk 1 "Revenue grew 10% in Q1."). split; reflexivity.
  - exact (H Demo.hello 0 eq_refl eq_refl eq_refl).
Defined.

(** ** A claim on a page that is not there *)

Lemma matching_none (pages : list Page.t) (n : Z) :
  (forall page, In page pages -> Page.page_number page <> n) ->
  matching pages n = None.
Proof.
  intros H. unfold matching.
  destruct (find (fun page => Z.eqb (Page.page_number page) n) pages) as [page|] eqn:F;
    [|reflexivity].
  apply find_some in F. destruct F as [Hin Heq].
  apply Z.eqb_eq in Heq. now contradiction (H page Hin).
Qed.

Lemma with_search_results_fields (rs : list SearchResult.t) (st : State.t) :
  State.search_results (with_search_results rs st) = Some rs
  /\ State.extracted_pages (with_search_results rs st) = State.extracted_pages st.
Proof. destruct st. split; reflexivity. Qed.

(** C4. In a run that reaches [verify_results], a search result whose
    claimed page is the number of no extracted page is dropped silently:
    its task returns [None] without raising and without calling the
    gateway; the fan-out returns for the other search results the slots
    (or the exception) it returns without it, with one [None] slot put in
    at its position; and the node returns what it returns on the state
    without that search result (the header alone and no verified result
    when it was the only one). *)
Theorem unmatched_claim_is_dropped
        (W : collaborators) (st0 : State.t) (c0 : nat)
        (pages : list Page.t) (before after : list SearchResult.t) (r : SearchResult.t) :
  let st := final (invoke (upstream W) st0 c0) in
  let c := calls (invoke (upstream W) st0 c0) in
  error (invoke (upstream W) st0 c0) = None ->
  State.search_results st = Some (before ++ r :: after)%list ->
  State.extracted_pages st = Some pages ->
  (forall page, In page pages -> Page.page_number page <> SearchResult.claimed_page r) ->
  (forall c1, verify W pages r c1 = Ok (None, c1))
  /\ match gather (map (verify W pages) (before ++ after)%list) c with
     | Ok (slots, c') =>
         gather (map (verify W pages) (before ++ r :: after)%list) c
         = Ok ((firstn (length before) slots
                  ++ None :: skipn (length before) slots)%list, c')
     | Raise e =>
         gather (map (verify W pages) (before ++ r :: after)%list) c = Raise e
     end
  /\ verify_results W st c =
     match (before ++ after)%list with
     | [] =>
         Ok ([Set_messages [Message.mk assistant ("Verified Results:" ++ nl ++ nl)];
              Set_verified_results []], c)
     | _ :: _ => verify_results W (with_search_results (before ++ after)%list st) c
     end.
Proof.
  intros st c He Hrs Hps Hnone.
  pose proof (matching_none pages _ Hnone) as Hm.
  assert (Hpne : pages <> []).
  { destruct (upstream_reaches_verify W st0 c0 He) as (ps' & rs' & Hps' & Hne & _).
    fold st in Hps'. rewrite Hps in Hps'. now inversion Hps'. }
  assert (Hgather :
            match gather (map (verify W pages) (before ++ after)%list) c with
            | Ok (slots, c') =>
                gather (map (verify W pages) (before ++ r :: after)%list) c
                = Ok ((firstn (length before) slots
                         ++ None :: skipn (length before) slots)%list, c')
            | Raise e =>
                gather (map (verify W pages) (before ++ r :: after)%list) c = Raise e
            end).
  { rewrite (gather_verify_unmatched W pages before after r c Hm).
    rewrite map_app, gather_app.
    destruct (gather (map (verify W pages) before) c) as [[s1 c1]|e] eqn:G1; [|reflexivity].
    destruct (gather (map (verify W pages) after) c1) as [[s2 c2]|e]; [|reflexivity].
    apply gather_length in G1. rewrite length_map in G1.
    rewrite <- G1, firstn_app, skipn_app, firstn_all, skipn_all, Nat.sub_diag.
    simpl. now rewrite app_nil_r. }
  split; [intros c1; now apply verify_unmatched|].
  split; [exact Hgather|].
  assert (Hne : (before ++ r :: after)%list <> []) by (destruct before; discriminate).
  rewrite (verify_results_run W pages st c _ Hrs Hne Hps Hpne).
  destruct (before ++ after)%list as [|x rest] eqn:Hrest.
  - apply app_eq_nil in Hrest. destruct Hrest as [-> ->]. simpl.
    unfold bind. rewrite (verify_unmatched W pages r c Hm). reflexivity.
  - destruct (with_search_results_fields (x :: rest) st) as [Hrs' Hps'].
    rewrite Hps in Hps'.
    assert (Hne' : x :: rest <> []) by discriminate.
    rewrite (verify_results_run W pages _ c _ Hrs' Hne' Hps' Hpne).
    destruct (gather (map (verify W pages) (x :: rest)) c) as [[slots c']|e];
      rewrite Hgather; [|reflexivity].
    rewrite keep_truthy_app. simpl. rewrite <- keep_truthy_app.
    now rewrite firstn_skipn.
Qed.

Lemma unmatched_claim_is_dropped_witness :
  verify_results Demo.stray_claim
    (final (invoke (upstream Demo.stray_claim) Demo.hello 0)) 4
  = verify_results Demo.stray_claim
      (with_search_results [Demo.claim 1; SearchResult.mk "Customers are happy" 2]
         (final (invoke (upstream Demo.stray_claim) Demo.hello 0))) 4
  /\ State.verified_results (final (graph_invoke Demo.stray_claim Demo.hello 0))
     = Some [VerifiedPoint.mk "Revenue grew 10%" "Page 1" "matches the page";
             VerifiedPoint.mk "Customers are happy" "Page 2" "matches the page"].
Proof.
  split; [|reflexivity].
  destruct (unmatched_claim_is_dropped
              Demo.stray_claim Demo.hello 0 Demo.two_pages
              [Demo.claim 1] [SearchResult.mk "Customers are happy" 2] (Demo.claim 7)
              eq_refl eq_refl eq_refl) as (_ & _ & H).
  - intros page [<-|[<-|[]]]; discriminate.
  - exact H.
Defined.

(** ** The verified results *)

Lemma formatted_lines (kept : list SearchResult.t) (vs : list VerifiedPoint.t) :
  Forall2 (fun r v =>
             VerifiedPoint.content v = SearchResult.content r
             /\ VerifiedPoint.source v
                = "Page " ++ str_of_int (SearchResult.claimed_page r))
          kept vs ->
  formatted vs = join (nl ++ nl) (map source_line kept).
Proof.
  intros H. unfold formatted. f_equal.
  induction H as [|r v kept vs [Hc Hs] _ IH]; [reflexivity|].
  cbn [map]. rewrite IH, Hc, Hs. reflexivity.
Qed.

Lemma judged_kept (W : collaborators) (pages : list Page.t)
      (rs : list SearchResult.t) (slots : list (option VerifiedPoint.t)) :
  Forall2 (judged W pages) rs slots ->
  exists kept,
    subsequence kept rs
    /\ Forall2 (fun r v =>
                  VerifiedPoint.content v = SearchResult.content r
                  /\ VerifiedPoint.source v
                     = "Page " ++ str_of_int (SearchResult.claimed_page r))
               kept (keep_truthy slots).
Proof.
  induction 1 as [|r slot rs slots Hj HF (kept & Hsub & Hrel)].
  - exists []. split; constructor.
  - destruct slot as [v|]; simpl keep_truthy.
    + destruct Hj as (vr & _ & _ & ->).
      exists (r :: kept). split; [now constructor|].
      constructor; [split; reflexivity | exact Hrel].
    + exists kept. split; [now constructor | assumption].
Qed.

(** The fan-out over the search results retains what [verified_from]
    tells from the answers. *)
Lemma gather_verified_from (W : collaborators) (pages : list Page.t)
      (rs : list SearchResult.t) :
  forall c slots c',
    gather (map (verify W pages) rs) c = Ok (slots, c') ->
    verified_from W pages c rs (keep_truthy slots) c'.
Proof.
  induction rs as [|r rs IH]; intros c slots c'.
  - simpl. unfold ret. intros E. inversion E. constructor.
  - simpl map. rewrite gather_cons.
    destruct (verify W pages r c) as [[slot c1]|e] eqn:V; [|discriminate].
    destruct (gather (map (verify W pages) rs) c1) as [[l c2]|e] eqn:G; [|discriminate].
    intros E. inversion E; subst. clear E.
    specialize (IH _ _ _ G).
    destruct (matching pages (SearchResult.claimed_page r)) as [page|] eqn:Hm.
    + destruct (llm W c (verification_prompt W (SearchResult.claimed_page r)
                           (SearchResult.content r) (Page.content page)))
        as [response|e] eqn:L.
      * rewrite (verify_matched W pages r c page response Hm L) in V.
        inversion V; subst. clear V.
        destruct (parse (verification_parser W) response) as [vr|] eqn:P.
        -- destruct (VerificationResult.valid vr) eqn:Hv; simpl keep_truthy.
           ++ eapply verified_valid; eassumption.
           ++ eapply verified_denied; eassumption.
        -- simpl keep_truthy. eapply verified_garbled; eassumption.
      * unfold verify in V. rewrite Hm in V. unfold bind, ainvoke in V.
        rewrite L in V. discriminate.
    + rewrite (verify_unmatched W pages r c Hm) in V. inversion V; subst.
      simpl keep_truthy. now apply verified_unmatched.
Qed.

(** The answers of the gateway leave no choice about what is retained. *)
Lemma verified_from_unique (W : collaborators) (pages : list Page.t)
      (c : nat) (rs : list SearchResult.t) (vs1 : list VerifiedPoint.t) (c1 : nat) :
  verified_from W pages c rs vs1 c1 ->
  forall vs2 c2, verified_from W pages c rs vs2 c2 -> vs1 = vs2 /\ c1 = c2.
Proof.
  induction 1 as [c | c r rs vs c' Hm _ IH
                  | c r rs vs c' page response Hm L P _ IH
                  | c r rs vs c' page response vr Hm L P Hv _ IH
                  | c r rs vs c' page response vr Hm L P Hv _ IH];
    intros vs2 c2 H2; inversion H2; subst;
    try (now split);
    repeat match goal with
           | Ha : matching pages ?n = _, Hb : matching pages ?n = _ |- _ =>
               rewrite Ha in Hb; inversion Hb; subst; clear Hb
           | Ha : llm W ?k ?p = _, Hb : llm W ?k ?p = _ |- _ =>
               rewrite Ha in Hb; inversion Hb; subst; clear Hb
           | Ha : parse _ ?t = _, Hb : parse _ ?t = _ |- _ =>
               rewrite Ha in Hb; inversion Hb; subst; clear Hb
           | Ha : VerificationResult.valid ?v = _,
             Hb : VerificationResult.valid ?v = _ |- _ =>
               rewrite Ha in Hb; inversion Hb
           end;
    try discriminate;
    match goal with
    | Hrest : verified_from W pages _ rs _ _ |- _ =>
        destruct (IH _ _ Hrest) as [-> ->]; now split
    end.
Qed.

Lemma verified_from_length (W : collaborators) (pages : list Page.t)
      (c : nat) (rs : list SearchResult.t) (vs : list VerifiedPoint.t) (c' : nat) :
  verified_from W pages c rs vs c' -> length vs <= length rs.
Proof.
  induction 1; simpl; lia.
Qed.

(** C5, as the code has it.  In every run of the graph that is not
    stopped, the verified results are exactly the search results that claim
    an extracted page and that the model asserted valid, in the order of
    the search results: they are the list [verified_from] tells from the
    answers of the gateway to the calls of the node, the only such list,
    and so there are no more verified results than search results.  The
    number of search results is whatever the model returned. *)
Theorem verified_results_are_judged_search_results
        (W : collaborators) (st0 : State.t) (c0 : nat) :
  error (graph_invoke W st0 c0) = None ->
  exists pages rs vs,
    State.extracted_pages (final (graph_invoke W st0 c0)) = Some pages
    /\ State.search_results (final (graph_invoke W st0 c0)) = Some rs
    /\ State.verified_results (final (graph_invoke W st0 c0)) = Some vs
    /\ verified_from W pages (calls (invoke (upstream W) st0 c0)) rs vs
                     (calls (graph_invoke W st0 c0))
    /\ (forall vs' c', verified_from W pages (calls (invoke (upstream W) st0 c0)) rs vs' c' ->
                       vs' = vs)
    /\ length vs <= length rs.
Proof.
  rewrite graph_after_upstream. cbv zeta.
  destruct (error (invoke (upstream W) st0 c0)) as [err|] eqn:He.
  - intros H. rewrite He in H. discriminate.
  - cbn [invoke action verify_results_node].
    destruct (verify_results W (final (invoke (upstream W) st0 c0))
                (calls (invoke (upstream W) st0 c0))) as [[u c']|e] eqn:V;
      cbn [error final calls]; [intros _|discriminate].
    apply verify_results_ok in V.
    destruct V as (rs & pages & slots & Hrs & _ & Hps & _ & G & ->).
    exists pages, rs, (keep_truthy slots).
    pose proof (gather_verified_from W pages rs _ _ _ G) as HV.
    split; [|split; [|split; [|split; [exact HV|split]]]].
    + destruct (final (invoke (upstream W) st0 c0)). exact Hps.
    + destruct (final (invoke (upstream W) st0 c0)). exact Hrs.
    + now destruct (final (invoke (upstream W) st0 c0)).
    + intros vs' c'' H'. symmetry. exact (proj1 (verified_from_unique _ _ _ _ _ _ HV _ _ H')).
    + eapply verified_from_length, HV.
Qed.

Lemma verified_results_are_judged_search_results_witness :
  exists pages rs vs,
    State.extracted_pages (final (graph_invoke Demo.one_garbled Demo.hello 0)) = Some pages
    /\ State.search_results (final (graph_invoke Demo.one_garbled Demo.hello 0)) = Some rs
    /\ State.verified_results (final (graph_invoke Demo.one_garbled Demo.hello 0)) = Some vs
    /\ verified_from Demo.one_garbled pages
                     (calls (invoke (upstream Demo.one_garbled) Demo.hello 0)) rs vs
                     (calls (graph_invoke Demo.one_garbled Demo.hello 0))
    /\ (forall vs' c',
           verified_from Demo.one_garbled pages
                         (calls (invoke (upstream Demo.one_garbled) Demo.hello 0)) rs vs' c' ->
           vs' = vs)
    /\ length vs <= length rs.
Proof.
  apply (verified_results_are_judged_search_results Demo.one_garbled Demo.hello 0).
  reflexivity.
Defined.

(** The bound of ten fails where the model returns eleven search results:
    the run is not stopped and its state holds all eleven. *)
Lemma search_results_may_exceed_ten :
  error (graph_invoke Demo.eleven_results Demo.hello 0) = None
  /\ State.search_results (final (graph_invoke Demo.eleven_results Demo.hello 0))
     = Some (repeat (Demo.claim 1) 11)
  /\ ~ length (repeat (Demo.claim 1) 11) <= 10.
Proof. repeat split. simpl. lia. Qed.

(** C7. When [verify_results] returns, it returns exactly one message, of
    the assistant, and folding its dictionary into the state appends that
    one message: after the header, its content is the line
    [<content> (Source: Page <claimed page>)] of every retained search
    result, in their order, joined by blank lines; the retained search
    results are those the verified results were made from. *)
Theorem verify_appends_one_formatted_message
        (W : collaborators) (st : State.t) (c : nat) (u : update) (c' : nat) :
  verify_results W st c = Ok (u, c') ->
  exists rs kept vs,
    State.search_results st = Some rs
    /\ subsequence kept rs
    /\ Forall2 (fun r v =>
                  VerifiedPoint.content v = SearchResult.content r
                  /\ VerifiedPoint.source v
                     = "Page " ++ str_of_int (SearchResult.claimed_page r))
               kept vs
    /\ u = [Set_messages
              [Message.mk assistant
                 ("Verified Results:" ++ nl ++ nl
                    ++ join (nl ++ nl) (map source_line kept))];
            Set_verified_results vs]
    /\ State.verified_results (apply_update st u) = Some vs
    /\ State.messages (apply_update st u)
       = (State.messages st
            ++ [Message.mk assistant
                  ("Verified Results:" ++ nl ++ nl
                     ++ join (nl ++ nl) (map source_line kept))])%list.
Proof.
  intros V. apply verify_results_ok in V.
  destruct V as (rs & pages & slots & Hrs & _ & _ & _ & G & ->).
  destruct (judged_kept W pages rs slots (gather_verify_judged W pages rs _ _ _ G))
    as (kept & Hsub & Hrel).
  exists rs, kept, (keep_truthy slots).
  rewrite (formatted_lines kept (keep_truthy slots) Hrel).
  repeat split; try assumption; now destruct st.
Qed.

Lemma verify_appends_one_formatted_message_witness :
  exists kept,
    subsequence kept [Demo.claim 1; SearchResult.mk "Customers are happy" 2; Demo.claim 1]
    /\ State.messages (final (graph_invoke Demo.one_garbled Demo.hello 0))
       = [Message.mk user "report.pdf: financial performance";
          Message.mk assistant
            ("Verified Results:" ++ nl ++ nl ++ join (nl ++ nl) (map source_line kept))].
Proof.
  destruct (verify_appends_one_formatted_message
              Demo.one_garbled
              (final (invoke (upstream Demo.one_garbled) Demo.hello 0)) 4
              [Set_messages
                 [Message.mk assistant
                    ("Verified Results:" ++ nl ++ nl
                       ++ "Revenue grew 10% (Source: Page 1)" ++ nl ++ nl
                       ++ "Revenue grew 10% (Source: Page 1)")];
               Set_verified_results
                 [VerifiedPoint.mk "Revenue grew 10%" "Page 1" "matches the page";
                  VerifiedPoint.mk "Revenue grew 10%" "Page 1" "matches the page"]]
              7 eq_refl)
    as (rs & kept & vs & Hrs & Hsub & _ & _ & _ & Hm).
  exists kept. split.
  - inversion Hrs; subst rs. exact Hsub.
  - etransitivity; [|exact Hm]. reflexivity.
Defined.

(** * Further properties of the nodes and of the entry point *)

(** ** [process_input] *)

Lemma last_item_app {A : Type} (l : list A) (x : A) : last_item (l ++ [x])%list = Some x.
Proof.
  induction l as [|y l IH]; [reflexivity|].
  simpl. rewrite IH. destruct (l ++ [x])%list eqn:E; [|reflexivity].
  now destruct l.
Qed.

(** [process_input] raises [ValueError] when there is no message; otherwise
    it reads the last message only, whatever came before it, issues one
    gateway call with the parsing prompt of that message, and returns the
    path and the query the parser read; an answer that does not parse
    becomes the one [ValueError] of the node, and an exception of the
    gateway is raised as it is. *)
Theorem process_input_reads_last_message (W : collaborators) (st : State.t) (c : nat) :
  (State.messages st = [] ->
   process_input W st c = Raise (ValueError "No input provided."))
  /\ (forall earlier last_message,
         State.messages st = (earlier ++ [last_message])%list ->
         process_input W st c =
         match llm W c (parsing_prompt W (Message.content last_message)) with
         | Raise e => Raise e
         | Ok response =>
             match parse (input_parser W) response with
             | Some parsed_data =>
                 Ok ([Set_pdf_path (InputData.pdf_path parsed_data);
                      Set_query (InputData.query parsed_data)], S c)
             | None => Raise (ValueError "Failed to extract PDF path and query.")
             end
         end).
Proof.
  split.
  - intros H. unfold process_input. now rewrite H.
  - intros earlier m H. unfold process_input. rewrite H, last_item_app.
    unfold bind, ainvoke.
    destruct (llm W c (parsing_prompt W (Message.content m))) as [response|e];
      [|reflexivity].
    destruct (parse (input_parser W) response); reflexivity.
Qed.

Lemma process_input_reads_last_message_witness :
  process_input Demo.one_garbled
    (State.mk [Message.mk user "old.pdf: something else";
               Message.mk assistant "Verified Results:";
               Message.mk user "report.pdf: financial performance"]
              None None None None None None) 0
  = Ok ([Set_pdf_path "report.pdf"; Set_query "financial performance"], 1)
  /\ process_input Demo.one_garbled (State.mk [] None None None None None None) 0
     = Raise (ValueError "No input provided.").
Proof.
  split.
  - destruct (process_input_reads_last_message
                Demo.one_garbled
                (State.mk [Message.mk user "old.pdf: something else";
                           Message.mk assistant "Verified Results:";
                           Message.mk user "report.pdf: financial performance"]
                          None None None None None None) 0) as [_ H].
    exact (H [Message.mk user "old.pdf: something else";
              Message.mk assistant "Verified Results:"]
             (Message.mk user "report.pdf: financial performance") eq_refl).
  - destruct (process_input_reads_last_message
                Demo.one_garbled (State.mk [] None None None None None None) 0)
      as [H _].
    exact (H eq_refl).
Defined.

(** ** Where the exceptions of a run come from *)

Lemma gather_raises {A : Type} (tasks : list (M A)) :
  forall c e, gather tasks c = Raise e -> exists task c1, In task tasks /\ task c1 = Raise e.
Proof.
  induction tasks as [|t tasks IH]; intros c e; [discriminate|].
  rewrite gather_cons.
  destruct (t c) as [[a c1]|e1] eqn:T.
  - destruct (gather tasks c1) as [[l c2]|e2] eqn:G; [discriminate|].
    intros H. inversion H; subst e2.
    destruct (IH c1 e G) as (task & c3 & Hin & Ht).
    exists task, c3. split; [now right | exact Ht].
  - intros H. inversion H; subst e1. exists t, c. split; [now left | exact T].
Qed.

Lemma invoke_cons_error (n : node) (rest : list node) (st : State.t) (c : nat)
      (x : string * exn) :
  error (invoke (n :: rest) st c) = Some x ->
  (exists e, action n st c = Raise e /\ x = (name n, e))
  \/ (exists u c', action n st c = Ok (u, c')
                   /\ error (invoke rest (apply_update st u) c') = Some x).
Proof.
  simpl. destruct (action n st c) as [[u c']|e]; simpl; intros H.
  - right. now exists u, c'.
  - left. exists e. inversion H. now split.
Qed.

Section Provenance.

Variable W : collaborators.

Lemma ainvoke_raises (prompt : string) (c : nat) (e : exn) :
  ainvoke W prompt c = Raise e -> from_gateway W e.
Proof.
  unfold ainvoke. destruct (llm W c prompt) as [r|e'] eqn:L; [discriminate|].
  intros H. inversion H; subst e'. now exists c, prompt.
Qed.

Lemma process_input_raises (st : State.t) (c : nat) (e : exn) :
  process_input W st c = Raise e ->
  e = ValueError "No input provided."
  \/ e = ValueError "Failed to extract PDF path and query."
  \/ from_gateway W e.
Proof.
  unfold process_input.
  destruct (last_item (State.messages st)) as [m|];
    [|intros H; inversion H; now left].
  unfold bind. destruct (ainvoke W _ c) as [[response c1]|e1] eqn:A.
  - destruct (parse (input_parser W) response); [discriminate|].
    intros H. inversion H. right. now left.
  - intros H. inversion H; subst e1. right. right. eapply ainvoke_raises, A.
Qed.

Lemma process_pdf_raises (st : State.t) (e : exn) :
  process_pdf W st = Raise e ->
  e = ValueError "PDF path not found." \/ from_pdf_tool W e.
Proof.
  unfold process_pdf. destruct (not_str (State.pdf_path st));
    [intros H; inversion H; now left|].
  destruct (pdf_tool W _) as [res|e1] eqn:T; [discriminate|].
  intros H. inversion H; subst e1. right. eexists. exact T.
Qed.

Lemma summarize_raises (page : Page.t) (c : nat) (e : exn) :
  summarize W page c = Raise e -> e = OutputParserException \/ from_gateway W e.
Proof.
  unfold summarize, bind. destruct (ainvoke W _ c) as [[response c1]|e1] eqn:A.
  - destruct (parse (summary_parser W) response); [discriminate|].
    intros H. inversion H. now left.
  - intros H. inversion H; subst e1. right. eapply ainvoke_raises, A.
Qed.

Lemma summarize_page_raises (st : State.t) (c : nat) (e : exn) :
  summarize_page W st c = Raise e ->
  (State.extracted_pages st = None /\ e = KeyError "extracted_pages")
  \/ e = OutputParserException
  \/ from_gateway W e.
Proof.
  unfold summarize_page. destruct (State.extracted_pages st) as [eps|];
    [|intros H; inversion H; now left].
  unfold bind. destruct (gather (map (summarize W) eps) c) as [[l c1]|e1] eqn:G;
    [discriminate|].
  intros H. inversion H; subst e1. right.
  destruct (gather_raises _ _ _ G) as (task & c2 & Hin & Ht).
  apply in_map_iff in Hin. destruct Hin as (page & <- & _).
  eapply summarize_raises, Ht.
Qed.

Lemma for_each_summary_block_raises (l : list SummarizedPage.t) (e : exn) :
  for_each summary_block l = Raise e -> e = IndexError.
Proof.
  induction l as [|s l IH]; [discriminate|]. simpl.
  destruct (summary_block s) as [b|e1] eqn:B.
  - destruct (for_each summary_block l) as [bs|e2]; [discriminate|].
    intros H. inversion H; subst e2. now apply IH.
  - intros H. inversion H; subst e1. eapply summary_block_raises, B.
Qed.

Lemma search_summaries_raises (st : State.t) (c : nat) (e : exn) :
  search_summaries W st c = Raise e ->
  e = ValueError "Query not found."
  \/ e = ValueError "Summaries not found."
  \/ e = IndexError
  \/ e = ValueError "Failed to parse search results."
  \/ from_gateway W e.
Proof.
  unfold search_summaries.
  destruct (not_str (State.query st)); [intros H; inversion H; now left|].
  destruct (not_list (State.summarized_pages st));
    [intros H; inversion H; right; now left|].
  unfold bind, lift.
  destruct (for_each summary_block _) as [blocks|e1] eqn:F.
  - destruct (ainvoke W _ c) as [[response c1]|e2] eqn:A.
    + destruct (parse (search_result_list_parser W) response); [discriminate|].
      intros H. inversion H. right. right. right. now left.
    + intros H. inversion H; subst e2. right. right. right. right.
      eapply ainvoke_raises, A.
  - intros H. inversion H; subst e1. right. right. left.
    eapply for_each_summary_block_raises, F.
Qed.

Lemma verify_raises (pages : list Page.t) (r : SearchResult.t) (c : nat) (e : exn) :
  verify W pages r c = Raise e -> from_gateway W e.
Proof.
  unfold verify. destruct (matching pages _) as [page|]; [|discriminate].
  unfold bind. destruct (ainvoke W _ c) as [[response c1]|e1] eqn:A.
  - destruct (parse (verification_parser W) response) as [vr|]; [|discriminate].
    destruct (VerificationResult.valid vr); discriminate.
  - intros H. inversion H; subst e1. eapply ainvoke_raises, A.
Qed.

Lemma verify_results_raises (st : State.t) (c : nat) (e : exn) :
  verify_results W st c = Raise e ->
  e = ValueError "No search results to verify."
  \/ (not_list (State.extracted_pages st) = true
      /\ e = ValueError "No extracted pages to verify against.")
  \/ from_gateway W e.
Proof.
  unfold verify_results.
  destruct (State.search_results st) as [[|r rs]|]; cbn [not_list];
    try (intros H; inversion H; now left).
  destruct (State.extracted_pages st) as [[|p ps]|]; cbn [not_list];
    try (intros H; inversion H; right; left; now split).
  unfold bind.
  destruct (gather (map (verify W (p :: ps)) (r :: rs)) c) as [[slots c1]|e1] eqn:G;
    [discriminate|].
  intros H. inversion H; subst e1. right. right.
  destruct (gather_raises _ _ _ G) as (task & c2 & Hin & Ht).
  apply in_map_iff in Hin. destruct Hin as (r' & <- & _).
  eapply verify_raises, Ht.
Qed.

End Provenance.

(** Every exception that stops a run of the graph was raised by the gateway,
    raised by the PDF tool, or is one of the nine exceptions of
    [own_errors], raised by the node listed with it.  In particular
    [summarize_page] never misses its key and [verify_results] never finds
    the pages empty, although each has code for it; and no answer that
    fails to parse stops [verify_results]. *)
Theorem run_errors (W : collaborators) (st : State.t) (c : nat) (n : string) (e : exn) :
  error (graph_invoke W st c) = Some (n, e) ->
  In (n, e) own_errors \/ from_gateway W e \/ from_pdf_tool W e.
Proof.
  rewrite graph_after_upstream. cbv zeta.
  destruct (error (invoke (upstream W) st c)) as [x|] eqn:Hup.
  - intros H. rewrite Hup in H. inversion H; subst x. clear H.
    unfold upstream in Hup.
    apply invoke_cons_error in Hup.
    destruct Hup as [(e1 & A & Hx)|(u1 & c1 & A1 & Hup)].
    { inversion Hx; subst. cbn [action process_input_node] in A.
      apply process_input_raises in A.
      destruct A as [->|[->|G]]; simpl; auto 20. }
    apply invoke_cons_error in Hup.
    destruct Hup as [(e2 & A & Hx)|(u2 & c2 & A2 & Hup)].
    { inversion Hx; subst. cbn [action process_pdf_node] in A. unfold lift in A.
      destruct (process_pdf W _) as [u|e2'] eqn:P; [discriminate|].
      inversion A; subst e2'. apply process_pdf_raises in P.
      destruct P as [->|T]; simpl; auto 20. }
    apply invoke_cons_error in Hup.
    destruct Hup as [(e3 & A & Hx)|(u3 & c3 & A3 & Hup)].
    { inversion Hx; subst. cbn [action summarize_page_node] in A.
      apply summarize_page_raises in A.
      destruct A as [[Hnone _]|[->|G]]; simpl; auto 20.
      cbn [action process_pdf_node] in A2. unfold lift in A2.
      destruct (process_pdf W _) as [u|e2'] eqn:P; [|discriminate].
      inversion A2; subst u c2. apply process_pdf_ok in P.
      destruct P as [_ [ps ->]].
      destruct (apply_update st u1). discriminate. }
    apply invoke_cons_error in Hup.
    destruct Hup as [(e4 & A & Hx)|(u4 & c4 & A4 & Hup)]; [|discriminate].
    inversion Hx; subst. cbn [action search_summaries_node] in A.
    apply search_summaries_raises in A.
    destruct A as [->|[->|[->|[->|G]]]]; simpl; auto 20.
  - cbn [invoke action verify_results_node].
    destruct (verify_results W _ _) as [[u c']|e5] eqn:V; cbn [error]; [discriminate|].
    intros H. inversion H; subst n e5.
    apply verify_results_raises in V.
    destruct V as [->|[[Hempty _]|G]]; simpl; auto 20.
    destruct (upstream_reaches_verify W st c Hup) as (pages & rs & Hps & Hne & _).
    rewrite Hps in Hempty. destruct pages; [now contradiction Hne | discriminate].
Qed.

Lemma run_errors_witness :
  In ("summarize_page", OutputParserException) own_errors
  \/ from_gateway Demo.garbled_summary OutputParserException
  \/ from_pdf_tool Demo.garbled_summary OutputParserException.
Proof.
  apply (run_errors Demo.garbled_summary Demo.hello 0). reflexivity.
Defined.

(** ** The calls and the failures of the verification fan-out *)

Section VerifyCalls.

Variable W : collaborators.
Variable pages : list Page.t.

Lemma verify_calls (r : SearchResult.t) (c : nat) (slot : option VerifiedPoint.t) (c' : nat) :
  verify W pages r c = Ok (slot, c') ->
  c' = (if has_page pages r then S c else c)
  /\ (slot <> None -> has_page pages r = true).
Proof.
  unfold verify, has_page.
  destruct (matching pages (SearchResult.claimed_page r)) as [page|].
  - unfold bind. destruct (ainvoke W _ c) as [[response c1]|e] eqn:A; [|discriminate].
    apply ainvoke_ok in A. destruct A as [_ ->].
    destruct (parse (verification_parser W) response) as [vr|];
      [destruct (VerificationResult.valid vr)|];
      unfold ret; intros H; inversion H; now split.
  - unfold ret. intros H. inversion H. split; [reflexivity|]. intros Hs. now contradiction Hs.
Qed.

Lemma gather_verify_calls (rs : list SearchResult.t) :
  forall c slots c',
    gather (map (verify W pages) rs) c = Ok (slots, c') ->
    c' = c + length (filter (has_page pages) rs)
    /\ length (keep_truthy slots) <= length (filter (has_page pages) rs).
Proof.
  induction rs as [|r rs IH]; intros c slots c'.
  - simpl. unfold ret. intros H. inversion H. simpl. split; lia.
  - simpl map. rewrite gather_cons.
    destruct (verify W pages r c) as [[slot c1]|e] eqn:V; [|discriminate].
    destruct (gather (map (verify W pages) rs) c1) as [[l c2]|e] eqn:G; [|discriminate].
    intros H. inversion H; subst. clear H.
    apply verify_calls in V. destruct V as [-> Hslot].
    destruct (IH _ _ _ G) as [-> Hle]. simpl filter.
    destruct (has_page pages r) eqn:Hp.
    + simpl length. split; [lia|]. destruct slot; simpl; lia.
    + split; [reflexivity|]. destruct slot as [v|]; simpl; [|exact Hle].
      assert (Some v <> None) as Hv by discriminate.
      specialize (Hslot Hv). discriminate.
Qed.

(** A task returns as soon as the gateway answers its call. *)
Lemma verify_returns (r : SearchResult.t) (c : nat) :
  (forall prompt, exists response, llm W c prompt = Ok response) ->
  exists slot c', verify W pages r c = Ok (slot, c').
Proof.
  intros Hllm. unfold verify.
  destruct (matching pages (SearchResult.claimed_page r)) as [page|];
    [|now exists None, c].
  unfold bind, ainvoke.
  destruct (Hllm (verification_prompt W (SearchResult.claimed_page r)
                    (SearchResult.content r) (Page.content page))) as [response ->].
  destruct (parse (verification_parser W) response) as [vr|];
    [destruct (VerificationResult.valid vr)|]; eexists; eexists; reflexivity.
Qed.

Lemma gather_verify_returns (rs : list SearchResult.t) :
  forall c,
    (forall i prompt, c <= i < c + length rs -> exists response, llm W i prompt = Ok response) ->
    exists slots c', gather (map (verify W pages) rs) c = Ok (slots, c').
Proof.
  induction rs as [|r rs IH]; intros c Hllm.
  - exists [], c. reflexivity.
  - simpl map. rewrite gather_cons.
    destruct (verify_returns r c) as (slot & c1 & V).
    { intros prompt. apply Hllm. simpl. lia. }
    rewrite V. apply verify_calls in V. destruct V as [Hc1 _].
    destruct (IH c1) as (slots & c2 & G).
    { intros i prompt Hi. apply Hllm. simpl.
      destruct (has_page pages r); subst c1; lia. }
    rewrite G. now exists (slot :: slots), c2.
Qed.

Lemma matching_first (before after : list Page.t) (page : Page.t) (n : Z) :
  Page.page_number page = n ->
  (forall p, In p before -> Page.page_number p <> n) ->
  matching (before ++ page :: after)%list n = Some page.
Proof.
  intros Hn. unfold matching. induction before as [|p before IH]; intros Hb; simpl.
  - apply Z.eqb_eq in Hn. now rewrite Hn.
  - assert (Hp : Page.page_number p <> n) by (apply Hb; now left).
    apply Z.eqb_neq in Hp. rewrite Hp. apply IH. intros q Hq. apply Hb. now right.
Qed.

End VerifyCalls.

(** Past its guards, [verify_results] returns whenever the gateway answers
    the calls of the batch, whatever the answers are: it issues one call
    per search result whose claimed page was extracted, and retains at most
    that many records. *)
Theorem verify_results_returns_when_gateway_answers
        (W : collaborators) (st : State.t) (c : nat)
        (pages : list Page.t) (rs : list SearchResult.t) :
  State.search_results st = Some rs -> rs <> [] ->
  State.extracted_pages st = Some pages -> pages <> [] ->
  (forall i prompt, c <= i < c + length rs -> exists response, llm W i prompt = Ok response) ->
  exists verified_results,
    verify_results W st c =
    Ok ([Set_messages
           [Message.mk assistant
              ("Verified Results:" ++ nl ++ nl ++ formatted verified_results)];
         Set_verified_results verified_results],
        c + length (filter (has_page pages) rs))
    /\ length verified_results <= length (filter (has_page pages) rs).
Proof.
  intros Hrs Hne Hps Hpne Hllm.
  destruct (gather_verify_returns W pages rs c Hllm) as (slots & c' & G).
  destruct (gather_verify_calls W pages rs c slots c' G) as [-> Hle].
  exists (keep_truthy slots). split; [|exact Hle].
  now rewrite (verify_results_run W pages st c rs Hrs Hne Hps Hpne), G.
Qed.

Lemma verify_results_returns_when_gateway_answers_witness :
  exists verified_results,
    verify_results Cases.one_denied
      (Demo.verify_state [Demo.claim 1; Demo.claim 7; SearchResult.mk "Customers are happy" 2]) 4
    = Ok ([Set_messages
             [Message.mk assistant
                ("Verified Results:" ++ nl ++ nl ++ formatted verified_results)];
           Set_verified_results verified_results], 4 + 2)
    /\ length verified_results <= 2.
Proof.
  apply (verify_results_returns_when_gateway_answers
           Cases.one_denied
           (Demo.verify_state
              [Demo.claim 1; Demo.claim 7; SearchResult.mk "Customers are happy" 2])
           4 Demo.two_pages
           [Demo.claim 1; Demo.claim 7; SearchResult.mk "Customers are happy" 2]
           eq_refl).
  - discriminate.
  - reflexivity.
  - discriminate.
  - intros i prompt Hi. simpl in Hi.
    assert (H : i = 4 \/ i = 5 \/ i = 6) by lia.
    destruct H as [-> | [-> | ->]]; eexists; reflexivity.
Defined.

(** An exception of the gateway is not isolated: when the tasks of the
    search results before it return and the gateway raises at the call of
    the next search result that has a page, [verify_results] raises an
    exception of the gateway, raised at that call or at a later one, and
    the run stops there with the state as it was and no verified result.
    When the gateway answers the later calls of the batch, so that no
    other task raises, the exception is the one of that call. *)
Theorem verify_results_gateway_failure_is_fatal
        (W : collaborators) (st : State.t) (c : nat) (pages : list Page.t)
        (before after : list SearchResult.t) (r : SearchResult.t)
        (slots : list (option VerifiedPoint.t)) (c1 : nat) (page : Page.t) (e : exn) :
  State.search_results st = Some (before ++ r :: after)%list ->
  State.extracted_pages st = Some pages ->
  gather (map (verify W pages) before) c = Ok (slots, c1) ->
  matching pages (SearchResult.claimed_page r) = Some page ->
  llm W c1 (verification_prompt W (SearchResult.claimed_page r)
              (SearchResult.content r) (Page.content page)) = Raise e ->
  (exists e',
      verify_results W st c = Raise e'
      /\ (exists i prompt, c1 <= i /\ llm W i prompt = Raise e')
      /\ error (invoke [verify_results_node W] st c) = Some ("verify_results", e')
      /\ final (invoke [verify_results_node W] st c) = st
      /\ trace (invoke [verify_results_node W] st c) = [])
  /\ ((forall i prompt, c1 < i <= c1 + length after ->
                        exists response, llm W i prompt = Ok response) ->
      verify_results W st c = Raise e
      /\ error (invoke [verify_results_node W] st c) = Some ("verify_results", e)).
Proof.
  intros Hrs Hps G Hm L.
  assert (Hne : (before ++ r :: after)%list <> []) by (destruct before; discriminate).
  assert (Hpne : pages <> []) by (intros ->; discriminate).
  assert (V : verify_results W st c = Raise e).
  { rewrite (verify_results_run W pages st c _ Hrs Hne Hps Hpne).
    rewrite map_app, gather_app, G. simpl map. rewrite gather_cons.
    unfold verify at 1. rewrite Hm. unfold bind, ainvoke. now rewrite L. }
  pose proof (invoke_raises (verify_results_node W) [] st c e V) as Hrun.
  split.
  - exists e. split; [exact V|]. split; [eexists c1, _; split; [apply le_n | exact L]|].
    rewrite Hrun. now repeat split.
  - intros _. split; [exact V|]. now rewrite Hrun.
Qed.

Lemma verify_results_gateway_failure_is_fatal_witness :
  (exists e',
      verify_results Cases.gateway_hiccup
        (final (invoke (upstream Cases.gateway_hiccup) Demo.hello 0)) 4 = Raise e'
      /\ (exists i prompt, 5 <= i /\ llm Cases.gateway_hiccup i prompt = Raise e')
      /\ error (invoke [verify_results_node Cases.gateway_hiccup]
                  (final (invoke (upstream Cases.gateway_hiccup) Demo.hello 0)) 4)
         = Some ("verify_results", e')
      /\ final (invoke [verify_results_node Cases.gateway_hiccup]
                  (final (invoke (upstream Cases.gateway_hiccup) Demo.hello 0)) 4)
         = final (invoke (upstream Cases.gateway_hiccup) Demo.hello 0)
      /\ trace (invoke [verify_results_node Cases.gateway_hiccup]
                  (final (invoke (upstream Cases.gateway_hiccup) Demo.hello 0)) 4) = [])
  /\ verify_results Cases.gateway_hiccup
       (final (invoke (upstream Cases.gateway_hiccup) Demo.hello 0)) 4
     = Raise (ExternalError "gateway")
  /\ error (invoke [verify_results_node Cases.gateway_hiccup]
              (final (invoke (upstream Cases.gateway_hiccup) Demo.hello 0)) 4)
     = Some ("verify_results", ExternalError "gateway").
Proof.
  destruct (verify_results_gateway_failure_is_fatal
              Cases.gateway_hiccup
              (final (invoke (upstream Cases.gateway_hiccup) Demo.hello 0)) 4
              Demo.two_pages [Demo.claim 1] [Demo.claim 1]
              (SearchResult.mk "Customers are happy" 2)
              [Some (VerifiedPoint.mk "Revenue grew 10%" "Page 1" "matches the page")] 5
              (Page.mk 2 "Customer satisfaction improved.") (ExternalError "gateway")
              eq_refl eq_refl eq_refl eq_refl eq_refl) as [Hany Hone].
  split; [exact Hany|]. apply Hone.
  intros i prompt Hi. simpl in Hi.
  assert (H : i = 6) by lia. subst i. eexists. reflexivity.
Defined.

(** A claim is checked against the first extracted page that bears its
    page number: the pages before it that bear other numbers and all the
    pages after it, even with the same number, are never consulted. *)
Theorem verify_consults_first_matching_page
        (W : collaborators) (before after : list Page.t) (page : Page.t)
        (r : SearchResult.t) (c : nat) :
  Page.page_number page = SearchResult.claimed_page r ->
  (forall p, In p before -> Page.page_number p <> SearchResult.claimed_page r) ->
  verify W (before ++ page :: after)%list r c = verify W [page] r c.
Proof.
  intros Hn Hb. unfold verify.
  rewrite (matching_first before after page _ Hn Hb).
  assert (H1 : matching [page] (SearchResult.claimed_page r) = Some page).
  { apply (matching_first [] [] page _ Hn). intros p []. }
  now rewrite H1.
Qed.

Lemma verify_consults_first_matching_page_witness :
  verify Demo.one_garbled Cases.twin_pages (Demo.claim 1) 4
  = verify Demo.one_garbled [Page.mk 1 "Revenue grew 10% in Q1."] (Demo.claim 1) 4.
Proof.
  apply (verify_consults_first_matching_page
           Demo.one_garbled [] [Page.mk 1 "Costs fell."; Page.mk 2 "Outlook."]
           (Page.mk 1 "Revenue grew 10% in Q1.") (Demo.claim 1) 4).
  - reflexivity.
  - intros p [].
Defined.

(** ** One summary per page *)

Lemma gather_summarize_returns (W : collaborators) (pages : list Page.t) :
  forall c,
    (forall i page,
        nth_error pages i = Some page ->
        exists response summary,
          llm W (c + i) (summarize_prompt W (Page.page_number page) (Page.content page))
          = Ok response
          /\ parse (summary_parser W) response = Some summary) ->
    exists summaries,
      gather (map (summarize W) pages) c = Ok (summaries, c + length pages)
      /\ forall i page,
          nth_error pages i = Some page ->
          exists response summary,
            llm W (c + i) (summarize_prompt W (Page.page_number page) (Page.content page))
            = Ok response
            /\ parse (summary_parser W) response = Some summary
            /\ nth_error summaries i = Some summary.
Proof.
  induction pages as [|p pages IH]; intros c Hall.
  - exists []. split.
    + simpl. unfold ret. now rewrite Nat.add_0_r.
    + intros [|i] page H; discriminate.
  - destruct (Hall 0 p eq_refl) as (response & summary & L & P).
    rewrite Nat.add_0_r in L.
    destruct (IH (S c)) as (summaries & G & Hnth).
    { intros i page Hi. destruct (Hall (S i) page Hi) as (r' & s' & L' & P').
      exists r', s'. split; [|exact P'].
      now replace (S c + i) with (c + S i) by lia. }
    exists (summary :: summaries). split.
    + simpl map. rewrite gather_cons.
      unfold summarize at 1. unfold bind, ainvoke. rewrite L, P. unfold ret.
      rewrite G. simpl length. now replace (S c + length pages) with (c + S (length pages)) by lia.
    + intros [|i] page Hi; simpl in Hi.
      * inversion Hi; subst page. exists response, summary.
        rewrite Nat.add_0_r. now repeat split.
      * destruct (Hnth i page Hi) as (r' & s' & L' & P' & N').
        exists r', s'. replace (c + S i) with (S c + i) by lia. now repeat split.
Qed.

(** When the answer for every page parses, [summarize_page] returns one
    summary per extracted page, in the order of the pages: the summary at
    position [i] is the one parsed from the answer to call [c + i], which
    asked about the page at position [i]; it issues exactly one call per
    page, and none when there is no page. *)
Theorem summarize_page_returns_one_summary_per_page
        (W : collaborators) (st : State.t) (c : nat) (pages : list Page.t) :
  State.extracted_pages st = Some pages ->
  (forall i page,
      nth_error pages i = Some page ->
      exists response summary,
        llm W (c + i) (summarize_prompt W (Page.page_number page) (Page.content page))
        = Ok response
        /\ parse (summary_parser W) response = Some summary) ->
  exists summaries,
    summarize_page W st c
    = Ok ([Set_summarized_pages (map summarized summaries)], c + length pages)
    /\ length summaries = length pages
    /\ forall i page,
        nth_error pages i = Some page ->
        exists response summary,
          llm W (c + i) (summarize_prompt W (Page.page_number page) (Page.content page))
          = Ok response
          /\ parse (summary_parser W) response = Some summary
          /\ nth_error summaries i = Some summary.
Proof.
  intros Hps Hall.
  destruct (gather_summarize_returns W pages c Hall) as (summaries & G & Hnth).
  exists summaries. split; [|split; [|exact Hnth]].
  - unfold summarize_page. rewrite Hps. unfold bind. rewrite G. reflexivity.
  - apply gather_length in G. now rewrite length_map in G.
Qed.

Lemma summarize_page_returns_one_summary_per_page_witness :
  exists summaries,
    summarize_page Demo.one_garbled (Demo.verify_state []) 1
    = Ok ([Set_summarized_pages (map summarized summaries)], 1 + 2)
    /\ length summaries = 2.
Proof.
  destruct (summarize_page_returns_one_summary_per_page
              Demo.one_garbled (Demo.verify_state []) 1 Demo.two_pages eq_refl)
    as (summaries & H & Hlen & _).
  - intros [|[|i]] page Hi; simpl in Hi;
      [inversion Hi; subst | inversion Hi; subst | destruct i; discriminate].
    + exists "s1". eexists. split; reflexivity.
    + exists "s2". eexists. split; reflexivity.
  - exists summaries. split; assumption.
Defined.

(** ** The search prompt *)

Lemma summary_block_text (s : SummarizedPage.t) :
  3 <= length (SummarizedPage.key_points s) ->
  summary_block s = Ok (summary_text s).
Proof.
  unfold summary_block, summary_text, block_text, index.
  destruct (SummarizedPage.key_points s) as [|p1 [|p2 [|p3 kp]]]; simpl; intros H;
    try lia. reflexivity.
Qed.

Lemma for_each_summary_text (l : list SummarizedPage.t) :
  Forall (fun s => 3 <= length (SummarizedPage.key_points s)) l ->
  for_each summary_block l = Ok (map summary_text l).
Proof.
  induction 1 as [|s l Hs _ IH]; [reflexivity|].
  simpl. now rewrite (summary_block_text s Hs), IH.
Qed.

Lemma summary_block_first_three (s : SummarizedPage.t) :
  summary_block (first_three s) = summary_block s.
Proof.
  unfold summary_block, first_three, index. simpl.
  destruct (SummarizedPage.key_points s) as [|p1 [|p2 [|p3 kp]]]; reflexivity.
Qed.

Lemma for_each_first_three (l : list SummarizedPage.t) :
  for_each summary_block (map first_three l) = for_each summary_block l.
Proof.
  induction l as [|s l IH]; [reflexivity|].
  simpl. now rewrite summary_block_first_three, IH.
Qed.

(** With a query, and summaries that all have three key points,
    [search_summaries] issues exactly one gateway call, whose prompt holds
    the text of every summary in order, separated by blank lines, and the
    query; it returns the list the parser read from the answer as it is,
    raises its own [ValueError] when the answer does not parse, and raises
    what the gateway raises. *)
Theorem search_summaries_issues_one_call
        (W : collaborators) (st : State.t) (c : nat)
        (query : string) (summaries : list SummarizedPage.t) :
  State.query st = Some query -> query <> EmptyString ->
  State.summarized_pages st = Some summaries -> summaries <> [] ->
  Forall (fun s => 3 <= length (SummarizedPage.key_points s)) summaries ->
  search_summaries W st c =
  match llm W c (search_prompt W (join (nl ++ nl) (map summary_text summaries)) query) with
  | Raise e => Raise e
  | Ok response =>
      match parse (search_result_list_parser W) response with
      | Some parsed_results =>
          Ok ([Set_search_results (SearchResultList.results parsed_results)], S c)
      | None => Raise (ValueError "Failed to parse search results.")
      end
  end.
Proof.
  intros Hq Hqne Hs Hsne Hall. unfold search_summaries. rewrite Hq, Hs.
  destruct query as [|a query]; [now contradiction Hqne|].
  destruct summaries as [|s summaries]; [now contradiction Hsne|].
  cbn [not_str not_list]. rewrite (for_each_summary_text _ Hall).
  unfold bind, lift, ainvoke.
  destruct (llm W c _) as [response|e]; [|reflexivity].
  destruct (parse (search_result_list_parser W) response); reflexivity.
Qed.

Lemma search_summaries_issues_one_call_witness :
  search_summaries Demo.one_garbled
    (final (invoke (firstn 3 (graph Demo.one_garbled)) Demo.hello 0)) 3
  = Ok ([Set_search_results
           [Demo.claim 1; SearchResult.mk "Customers are happy" 2; Demo.claim 1]], 4).
Proof.
  rewrite (search_summaries_issues_one_call
             Demo.one_garbled
             (final (invoke (firstn 3 (graph Demo.one_garbled)) Demo.hello 0)) 3
             "financial performance"
             [SummarizedPage.mk 1 "Revenue" ["grew"; "10%"; "Q1"];
              SummarizedPage.mk 2 "Customers" ["satisfied"; "improved"; "survey"]]
             eq_refl).
  - reflexivity.
  - discriminate.
  - reflexivity.
  - discriminate.
  - repeat constructor.
Defined.

(** Key points past the third never reach the model: [search_summaries]
    does on a state what it does on the same state with every summary cut
    down to its first three key points. *)
Theorem search_summaries_ignores_extra_key_points
        (W : collaborators) (st : State.t) (c : nat) (summaries : list SummarizedPage.t) :
  State.summarized_pages st = Some summaries ->
  search_summaries W st c
  = search_summaries W (with_summarized_pages (map first_three summaries) st) c.
Proof.
  intros Hs. unfold search_summaries.
  assert (Hq : State.query (with_summarized_pages (map first_three summaries) st)
               = State.query st) by now destruct st.
  assert (Hs' : State.summarized_pages (with_summarized_pages (map first_three summaries) st)
                = Some (map first_three summaries)) by now destruct st.
  rewrite Hq, Hs, Hs', for_each_first_three.
  destruct summaries; reflexivity.
Qed.

Lemma search_summaries_ignores_extra_key_points_witness :
  search_summaries Demo.one_garbled
    (with_summarized_pages
       [SummarizedPage.mk 1 "Revenue" ["grew"; "10%"; "Q1"; "and more"; "and more"]]
       (Demo.verify_state [])) 3
  = search_summaries Demo.one_garbled
      (with_summarized_pages
         [SummarizedPage.mk 1 "Revenue" ["grew"; "10%"; "Q1"]]
         (with_summarized_pages
            [SummarizedPage.mk 1 "Revenue" ["grew"; "10%"; "Q1"; "and more"; "and more"]]
            (Demo.verify_state []))) 3.
Proof.
  apply (search_summaries_ignores_extra_key_points
           Demo.one_garbled
           (with_summarized_pages
              [SummarizedPage.mk 1 "Revenue" ["grew"; "10%"; "Q1"; "and more"; "and more"]]
              (Demo.verify_state [])) 3
           [SummarizedPage.mk 1 "Revenue" ["grew"; "10%"; "Q1"; "and more"; "and more"]]).
  reflexivity.
Defined.

(** ** A whole run *)

Section Run.

Variable W : collaborators.

Lemma process_input_returns (st : State.t) (c : nat) (u : update) (c' : nat) :
  process_input W st c = Ok (u, c') ->
  c' = S c
  /\ exists parsed_data,
      u = [Set_pdf_path (InputData.pdf_path parsed_data);
           Set_query (InputData.query parsed_data)].
Proof.
  unfold process_input. destruct (last_item (State.messages st)) as [m|]; [|discriminate].
  unfold bind. destruct (ainvoke W _ c) as [[response c1]|e] eqn:A; [|discriminate].
  apply ainvoke_ok in A. destruct A as [_ ->].
  destruct (parse (input_parser W) response) as [d|]; [|discriminate].
  unfold ret. intros E. inversion E. split; [reflexivity|]. now exists d.
Qed.

Lemma process_pdf_returns (st : State.t) (u : update) :
  process_pdf W st = Ok u ->
  exists path pdf_result,
    State.pdf_path st = Some path /\ path <> EmptyString
    /\ pdf_tool W path = Ok pdf_result
    /\ u = [Set_extracted_pages
              (match PdfResult.pages pdf_result with Some ps => ps | None => [] end)].
Proof.
  unfold process_pdf.
  destruct (State.pdf_path st) as [[|a path]|]; cbn [not_str]; try discriminate.
  destruct (pdf_tool W (String a path)) as [res|e] eqn:T; [|discriminate].
  intros E. inversion E. exists (String a path), res.
  rewrite rebuild_pages.
  split; [reflexivity|]. split; [discriminate|]. split; [exact T | reflexivity].
Qed.

Lemma summarize_page_returns (st : State.t) (c : nat) (u : update) (c' : nat) :
  summarize_page W st c = Ok (u, c') ->
  exists pages summaries,
    State.extracted_pages st = Some pages
    /\ u = [Set_summarized_pages (map summarized summaries)]
    /\ length summaries = length pages
    /\ c' = c + length pages.
Proof.
  unfold summarize_page. destruct (State.extracted_pages st) as [eps|]; [|discriminate].
  unfold bind. destruct (gather (map (summarize W) eps) c) as [[l c1]|e] eqn:G; [|discriminate].
  unfold ret. intros E. inversion E; subst.
  exists eps, l. repeat split.
  - apply gather_length in G. now rewrite length_map in G.
  - eapply gather_summarize_calls, G.
Qed.

Lemma for_each_summary_block_ok (l : list SummarizedPage.t) (blocks : list string) :
  for_each summary_block l = Ok blocks ->
  Forall (fun s => 3 <= length (SummarizedPage.key_points s)) l.
Proof.
  revert blocks. induction l as [|s l IH]; intros blocks; [constructor|].
  simpl. destruct (summary_block s) as [b|e] eqn:B; [|discriminate].
  destruct (for_each summary_block l) as [bs|e] eqn:F; [|discriminate].
  intros _. constructor; [|eapply IH; reflexivity].
  destruct (Nat.lt_ge_cases (length (SummarizedPage.key_points s)) 3) as [Hlt|Hge];
    [|exact Hge].
  rewrite (summary_block_short s Hlt) in B. discriminate.
Qed.

Lemma search_summaries_returns (st : State.t) (c : nat) (u : update) (c' : nat) :
  search_summaries W st c = Ok (u, c') ->
  exists query summaries rs,
    State.query st = Some query /\ query <> EmptyString
    /\ State.summarized_pages st = Some summaries /\ summaries <> []
    /\ Forall (fun s => 3 <= length (SummarizedPage.key_points s)) summaries
    /\ u = [Set_search_results rs]
    /\ c' = S c.
Proof.
  unfold search_summaries.
  destruct (State.query st) as [[|a q]|]; cbn [not_str]; try discriminate.
  destruct (State.summarized_pages st) as [[|s l]|]; cbn [not_list]; try discriminate.
  unfold bind, lift.
  destruct (for_each summary_block (s :: l)) as [blocks|e] eqn:F; [|discriminate].
  destruct (ainvoke W _ c) as [[response c1]|e] eqn:A; [|discriminate].
  apply ainvoke_ok in A. destruct A as [_ ->].
  destruct (parse (search_result_list_parser W) response) as [parsed|]; [|discriminate].
  unfold ret. intros E. inversion E.
  exists (String a q), (s :: l), (SearchResultList.results parsed).
  repeat split; try discriminate. eapply for_each_summary_block_ok, F.
Qed.

End Run.

(** A run of the graph that is not stopped ends in a state that is filled
    in completely: a path and a query that are not empty, at least one
    page, one summary per page, each with at least three key points, at
    least one search result, the verified results, and the messages of the
    start followed by exactly one message of the assistant.  It has issued
    two gateway calls, one more per page, and one more per search result
    whose claimed page was extracted. *)
Theorem completed_run_state (W : collaborators) (st0 : State.t) (c0 : nat) :
  error (graph_invoke W st0 c0) = None ->
  exists path query pages summaries rs vs,
    final (graph_invoke W st0 c0)
    = State.mk (State.messages st0
                  ++ [Message.mk assistant
                        ("Verified Results:" ++ nl ++ nl ++ formatted vs)])%list
               (Some path) (Some query) (Some pages) (Some summaries)
               (Some rs) (Some vs)
    /\ path <> EmptyString /\ query <> EmptyString
    /\ pages <> []
    /\ length summaries = length pages
    /\ Forall (fun s => 3 <= length (SummarizedPage.key_points s)) summaries
    /\ rs <> []
    /\ length vs <= length (filter (has_page pages) rs)
    /\ calls (graph_invoke W st0 c0)
       = c0 + 2 + length pages + length (filter (has_page pages) rs).
Proof.
  unfold graph_invoke, graph. intros He.
  apply invoke_cons_ok in He. destruct He as (u1 & c1 & E1 & He & -> & -> & _).
  apply invoke_cons_ok in He. destruct He as (u2 & c2 & E2 & He & -> & -> & _).
  apply invoke_cons_ok in He. destruct He as (u3 & c3 & E3 & He & -> & -> & _).
  apply invoke_cons_ok in He. destruct He as (u4 & c4 & E4 & He & -> & -> & _).
  apply invoke_cons_ok in He. destruct He as (u5 & c5 & E5 & _ & -> & -> & _).
  cbn [action process_input_node process_pdf_node summarize_page_node
              search_summaries_node verify_results_node] in E1, E2, E3, E4, E5.
  cbn [invoke final calls].
  apply process_input_returns in E1. destruct E1 as (-> & d & ->).
  unfold lift in E2.
  destruct (process_pdf W _) as [u2'|e2] eqn:P2; [|discriminate].
  inversion E2; subst u2' c2. clear E2.
  apply process_pdf_returns in P2.
  destruct P2 as (path & res & Hpath & Hpne & _ & ->).
  apply summarize_page_returns in E3.
  destruct E3 as (pages & sums & Hpages & -> & Hlen & ->).
  apply search_summaries_returns in E4.
  destruct E4 as (query & summaries & rs & Hq & Hqne & Hs & Hsne & Hall & -> & ->).
  apply verify_results_ok in E5.
  destruct E5 as (rs' & pages' & slots & Hrs & Hrne & Hps' & _ & G & ->).
  destruct st0 as [ms pp q0 ep sp sr vr]. simpl in *.
  inversion Hpath; subst path. inversion Hpages; subst pages.
  inversion Hq; subst query. inversion Hs; subst summaries.
  inversion Hrs; subst rs'. inversion Hps'; subst pages'.
  destruct (gather_verify_calls W _ rs _ _ _ G) as [-> Hle].
  eexists _, _, _, _, _, _. split; [reflexivity|].
  rewrite length_map in *.
  repeat split; try assumption.
  - intros Hnil. rewrite Hnil in Hlen. destruct sums; [now apply Hsne | discriminate].
  - lia.
Qed.

Lemma completed_run_state_witness :
  exists path query pages summaries rs vs,
    final (graph_invoke Cases.one_denied Demo.hello 0)
    = State.mk (State.messages Demo.hello
                  ++ [Message.mk assistant
                        ("Verified Results:" ++ nl ++ nl ++ formatted vs)])%list
               (Some path) (Some query) (Some pages) (Some summaries)
               (Some rs) (Some vs)
    /\ path <> EmptyString /\ query <> EmptyString
    /\ pages <> []
    /\ length summaries = length pages
    /\ Forall (fun s => 3 <= length (SummarizedPage.key_points s)) summaries
    /\ rs <> []
    /\ length vs <= length (filter (has_page pages) rs)
    /\ calls (graph_invoke Cases.one_denied Demo.hello 0)
       = 0 + 2 + length pages + length (filter (has_page pages) rs).
Proof.
  apply (completed_run_state Cases.one_denied Demo.hello 0). reflexivity.
Defined.

(** A document without pages always stops the run in [search_summaries]:
    when [process_input] has returned a path that is not empty and the PDF
    tool reports no page, or no page list at all, the run writes empty
    [extracted_pages] and [summarized_pages], issues no further gateway
    call, and is stopped by the guard on the query or, with a query, by the
    guard on the summaries. *)
Theorem run_without_pages_stops_at_search
        (W : collaborators) (st0 : State.t) (c0 : nat)
        (path query : string) (c1 : nat) (pdf_result : PdfResult.t) :
  process_input W st0 c0 = Ok ([Set_pdf_path path; Set_query query], c1) ->
  path <> EmptyString ->
  pdf_tool W path = Ok pdf_result ->
  PdfResult.pages pdf_result = None \/ PdfResult.pages pdf_result = Some [] ->
  graph_invoke W st0 c0 =
  {| trace := [("process_input", [Set_pdf_path path; Set_query query]);
               ("process_pdf", [Set_extracted_pages []]);
               ("summarize_page", [Set_summarized_pages []])];
     final := State.mk (State.messages st0) (Some path) (Some query) (Some []) (Some [])
                       (State.search_results st0) (State.verified_results st0);
     error := Some ("search_summaries",
                    ValueError (if not_str (Some query)
                                then "Query not found."
                                else "Summaries not found."));
     calls := c1 |}.
Proof.
  intros E1 Hpne Ht Hpages.
  assert (P : forall ms sp sr vr ep,
             process_pdf W (State.mk ms (Some path) (Some query) ep sp sr vr)
             = Ok [Set_extracted_pages []]).
  { intros. unfold process_pdf. cbn [State.pdf_path].
    destruct path as [|a path]; [now contradiction Hpne|]. cbn [not_str]. rewrite Ht.
    destruct Hpages as [-> | ->]; reflexivity. }
  unfold graph_invoke, graph.
  cbn [invoke action process_input_node]. rewrite E1.
  destruct st0 as [ms pp q ep sp sr vr].
  cbn [invoke action process_pdf_node apply_update fold_left apply_write].
  unfold lift. rewrite P.
  cbn [invoke action summarize_page_node apply_update fold_left apply_write].
  unfold summarize_page at 1. cbn [State.extracted_pages map gather].
  unfold bind at 1. unfold ret at 1.
  cbn [invoke action search_summaries_node apply_update fold_left apply_write map].
  unfold search_summaries at 1. cbn [State.query State.summarized_pages].
  destruct query as [|a query]; reflexivity.
Qed.

Lemma run_without_pages_stops_at_search_witness :
  error (graph_invoke Cases.no_page_list Demo.hello 0)
  = Some ("search_summaries", ValueError "Summaries not found.")
  /\ calls (graph_invoke Cases.no_page_list Demo.hello 0) = 1.
Proof.
  rewrite (run_without_pages_stops_at_search
             Cases.no_page_list Demo.hello 0 "report.pdf" "financial performance" 1
             (PdfResult.mk None) eq_refl).
  - split; reflexivity.
  - discriminate.
  - reflexivity.
  - now left.
Defined.

(** ** The entry point *)

Lemma lookup_messages_none (u : update) :
  ~ In k_messages (keys u) -> lookup_messages u = None.
Proof.
  induction u as [|w u IH]; intros H; [reflexivity|].
  simpl in H. destruct w; simpl;
    try (apply IH; intros Hin; apply H; now right).
  contradiction H. now left.
Qed.

Lemma upstream_silent (W : collaborators) (n : node) (st : State.t) (c : nat)
      (u : update) (c' : nat) :
  In n (upstream W) -> action n st c = Ok (u, c') -> print_update u = Ok [].
Proof.
  intros Hin E.
  assert (Hg : In n (graph W)).
  { unfold upstream in Hin. unfold graph. simpl in *. intuition. }
  pose proof (graph_keys W n st c u c' Hg E) as Hk.
  unfold print_update. rewrite lookup_messages_none; [reflexivity|].
  rewrite Hk. unfold upstream in Hin. simpl in Hin.
  destruct Hin as [<-|[<-|[<-|[<-|[]]]]]; simpl; intuition discriminate.
Qed.

(** Nodes that return no message print nothing: streaming them is running
    them. *)
Lemma astream_silent_app (silent rest : list node) :
  (forall n st c u c', In n silent -> action n st c = Ok (u, c') -> print_update u = Ok []) ->
  forall st c,
    astream (silent ++ rest)%list st c =
    match error (invoke silent st c) with
    | Some (_, e) => ([], Some e, calls (invoke silent st c))
    | None => astream rest (final (invoke silent st c)) (calls (invoke silent st c))
    end.
Proof.
  induction silent as [|n silent IH]; intros Hs st c; [reflexivity|].
  simpl. destruct (action n st c) as [[u c']|e] eqn:E; [|reflexivity].
  rewrite (Hs n st c u c' (or_introl eq_refl) E).
  rewrite IH; [|intros n' st' c0 u' c1 Hin; apply Hs; now right].
  simpl.
  destruct (error (invoke silent (apply_update st u) c')) as [[n' e']|]; [reflexivity|].
  destruct (astream rest _ _) as [[more err] c'']. reflexivity.
Qed.

(** Streaming the graph prints the final message of a run that is not
    stopped and nothing else. *)
Lemma astream_graph (W : collaborators) (st : State.t) (c : nat) :
  astream (graph W) st c =
  match error (graph_invoke W st c) with
  | Some (_, e) => ([], Some e, calls (graph_invoke W st c))
  | None =>
      (match State.verified_results (final (graph_invoke W st c)) with
       | Some vs => ["Assistant: " ++ "Verified Results:" ++ nl ++ nl ++ formatted vs]
       | None => []
       end,
       None, calls (graph_invoke W st c))
  end.
Proof.
  rewrite graph_after_upstream. cbv zeta.
  change (graph W) with (upstream W ++ [verify_results_node W])%list.
  rewrite (astream_silent_app (upstream W) [verify_results_node W] (upstream_silent W)).
  destruct (error (invoke (upstream W) st c)) as [[n e]|] eqn:He.
  - rewrite He. reflexivity.
  - cbn [astream invoke action verify_results_node].
    destruct (verify_results W _ _) as [[u c']|e] eqn:V; [|reflexivity].
    apply verify_results_ok in V.
    destruct V as (rs & pages & slots & _ & _ & _ & _ & _ & ->).
    cbn [error final calls trace].
    destruct (final (invoke (upstream W) st c)).
    reflexivity.
Qed.

(** A run that is not stopped has written its verified results. *)
Lemma completed_run_verified (W : collaborators) (st : State.t) (c : nat) :
  error (graph_invoke W st c) = None ->
  exists vs, State.verified_results (final (graph_invoke W st c)) = Some vs.
Proof.
  rewrite graph_after_upstream. cbv zeta.
  destruct (error (invoke (upstream W) st c)) as [x|] eqn:He.
  - intros H. rewrite He in H. discriminate.
  - cbn [invoke action verify_results_node].
    destruct (verify_results W _ _) as [[u c']|e] eqn:V; cbn [error final];
      [intros _|discriminate].
    apply verify_results_ok in V.
    destruct V as (rs & pages & slots & _ & _ & _ & _ & _ & ->).
    exists (keep_truthy slots). now destruct (final (invoke (upstream W) st c)).
Qed.

(** The body of the [async for] of [astream_graph_updates] prints exactly
    one line, the final message of the assistant, when the run is not
    stopped, and nothing when it is; the exception that stopped the run is
    raised out of [astream_graph_updates]. *)
Theorem astream_graph_updates_prints_final_message
        (W : collaborators) (user_input : string) (c : nat) :
  astream_graph_updates W user_input c =
  match error (graph_invoke W (initial_state user_input) c) with
  | Some (_, e) => ([], Some e, calls (graph_invoke W (initial_state user_input) c))
  | None =>
      (match State.verified_results (final (graph_invoke W (initial_state user_input) c)) with
       | Some vs => ["Assistant: " ++ "Verified Results:" ++ nl ++ nl ++ formatted vs]
       | None => []
       end,
       None, calls (graph_invoke W (initial_state user_input) c))
  end.
Proof.
  unfold astream_graph_updates.
  apply astream_graph.
Qed.

Lemma lower_exit_word (line : string) :
  existsb (String.eqb (lower line)) exit_words = true <-> In (lower line) exit_words.
Proof.
  rewrite existsb_exists. split.
  - intros (w & Hin & Heq). apply String.eqb_eq in Heq. now subst w.
  - intros Hin. exists (lower line). split; [exact Hin | apply String.eqb_refl].
Qed.

(** The chat loop ends exactly once, on its last round: the rounds before
    it each printed the one final message of a run that was not stopped,
    there are at most as many of them as input lines, and the last round is
    a goodbye, the end of the input, or a stopped run, which printed
    nothing. *)
Theorem main_loop_ends_once (W : collaborators) (inputs : list string) (c : nat) :
  exists answers last,
    main_loop W inputs c = (map (fun line => Answered [line]) answers ++ [last])%list
    /\ length answers <= length inputs
    /\ Forall (fun line =>
                 exists vs,
                   line = "Assistant: " ++ "Verified Results:" ++ nl ++ nl ++ formatted vs)
              answers
    /\ (last = Goodbye \/ last = End_of_input \/ exists e, last = Failed [] e).
Proof.
  revert c. induction inputs as [|line inputs IH]; intros c.
  - exists [], End_of_input. simpl.
    split; [reflexivity|]. split; [lia|]. split; [constructor | auto].
  - cbn [main_loop].
    destruct (existsb (String.eqb (lower line)) exit_words).
    + exists [], Goodbye. simpl.
      split; [reflexivity|]. split; [lia|]. split; [constructor | auto].
    + unfold astream_graph_updates. rewrite astream_graph.
      destruct (error (graph_invoke W (initial_state line) c)) as [[n e]|] eqn:He.
      * exists [], (Failed [] e). simpl.
        split; [reflexivity|]. split; [lia|]. split; [constructor | eauto].
      * destruct (completed_run_verified W (initial_state line) c He) as (vs & Hvs).
        rewrite Hvs.
        destruct (IH (calls (graph_invoke W (initial_state line) c)))
          as (answers & last & Hloop & Hlen & Hall & Hlast).
        exists (("Assistant: " ++ "Verified Results:" ++ nl ++ nl ++ formatted vs) :: answers),
               last.
        rewrite Hloop. simpl length. repeat split; try assumption; [lia|].
        constructor; [now exists vs | exact Hall].
Qed.

(** An exit word, in any mix of upper and lower case, ends the loop with a
    goodbye without running the graph, and nothing after it is read. *)
Theorem main_loop_stops_at_exit_word
        (W : collaborators) (before after : list string) (word : string) (c : nat) :
  In (lower word) exit_words ->
  (forall c', main_loop W (word :: after) c' = [Goodbye])
  /\ main_loop W (before ++ word :: after)%list c = main_loop W (before ++ [word])%list c.
Proof.
  intros Hw. apply lower_exit_word in Hw.
  assert (H1 : forall rest c', main_loop W (word :: rest) c' = [Goodbye]).
  { intros rest c'. cbn [main_loop]. now rewrite Hw. }
  split; [intros c'; apply H1|].
  revert c. induction before as [|line before IH]; intros c.
  - simpl app. now rewrite !H1.
  - rewrite <- !app_comm_cons. cbn [main_loop].
    destruct (existsb (String.eqb (lower line)) exit_words); [reflexivity|].
    destruct (astream_graph_updates W line c) as [[lines [e|]] c']; [reflexivity|].
    now rewrite IH.
Qed.

Lemma main_loop_stops_at_exit_word_witness :
  main_loop Demo.one_garbled
    ["report.pdf: financial performance"; "QuIt"; "report.pdf: financial performance"] 0
  = [Answered ["Assistant: " ++ "Verified Results:" ++ nl ++ nl
                 ++ "Revenue grew 10% (Source: Page 1)" ++ nl ++ nl
                 ++ "Revenue grew 10% (Source: Page 1)"];
     Goodbye].
Proof.
  destruct (main_loop_stops_at_exit_word
              Demo.one_garbled ["report.pdf: financial performance"]
              ["report.pdf: financial performance"] "QuIt" 0) as [_ H].
  - simpl. now left.
  - etransitivity; [exact H | reflexivity].
Defined.
